(** * Portable air quality monitor (bundle/code.py): a shallow embedding.

    The controller polls an SCD-30 CO2 sensor and a PM2.5 particulate sensor,
    keeps one rolling trend chart per metric, and checks a CO2 alarm and the
    battery voltage on every pass of its main loop.

    Conventions of the embedding.
    - Time is the value of [time.monotonic()], kept in whole milliseconds
      (CircuitPython derives it from its millisecond tick counter): the
      source's 2.3 s is 2300, a [wait_time] of 3 is 3000.
    - Python floats are rationals ([Q]); Python ints are [Z].  Means,
      normalised readings and positions on the display are computed
      exactly; binary64 differs from them in the last place, which
      shows as one pixel where an exact product is a whole number.  The
      battery voltage, whose rounded value is printed, is computed as
      binary64 does it: [Py.fl] rounds the exact result of each float
      operation to the nearest binary64 number.
    - The module globals of code.py (widgets, trend charts, configuration
      that the buttons can change) form the record [World]; every function
      of code.py is a state transformer over it that either returns, raises
      a Python exception, or is still running when its fuel is spent.
    - The sensors are oracles indexed by the number of accesses made so
      far; the imported helper functions that are not part of code.py are
      the fields of [Library]. *)

From Stdlib Require Import ZArith QArith Qabs Qminmax Lqa String Ascii List Lia Bool.
From Stdlib Require Import DecimalString DecimalZ DecimalPos.
From stdpp Require Import base decidable list.
Import ListNotations.

Local Open Scope string_scope.
Local Open Scope Z_scope.

(** ** Python primitives used by code.py *)

Module Py.

Inductive Exn : Type :=
| NameError (name : string)
| ZeroDivisionError
| IndexError
| ValueError.

(** [round(x)]: nearest integer, ties to the even one. *)
Definition round (q : Q) : Z :=
  let n := Qnum q in
  let d := Z.pos (Qden q) in
  let fl := n / d in
  let r2 := 2 * (n mod d) in
  if r2 <? d then fl
  else if d <? r2 then fl + 1
  else if Z.even fl then fl else fl + 1.

(** [2 ** e] for an integer exponent. *)
Definition pow2 (e : Z) : Q :=
  if 0 <=? e then inject_Z (Z.shiftl 1 e) else Qmake 1 (Z.to_pos (Z.shiftl 1 (- e))).

(** The binary64 number nearest to a rational, ties to the even
    significand: the value of a float literal, and the result of a float
    operation whose exact result is [q].  The significand [m] has 53
    bits and the exponent [e] stops at -1074, where the subnormal
    numbers begin.  Overflow to infinity is out of reach of the values
    of this program and is left out. *)
Definition fl (q : Q) : Q :=
  let a := Qabs q in
  if Qeq_bool a 0 then 0%Q
  else
    let e0 := Z.log2 (Qnum a) - Z.log2 (Z.pos (Qden a)) - 52 in
    let e1 := if Qle_bool (pow2 (52 + e0)) a then e0 else e0 - 1 in
    let e := Z.max e1 (-1074) in
    let m := round (a * pow2 (- e)) in
    (if Qle_bool 0 q then inject_Z m * pow2 e else - (inject_Z m * pow2 e))%Q.

(** [round(x, 2)] on a float: the decimal with two places nearest to
    the exact value of [x], ties to the even one, read back as a float. *)
Definition round2 (x : Q) : Q :=
  fl (inject_Z (round (x * 100)) / 100)%Q.

(** [int(x)]: truncation towards zero. *)
Definition int (q : Q) : Z := Z.quot (Qnum q) (Z.pos (Qden q)).

(** [a / b] on numbers: true division, raising on a zero divisor. *)
Definition truediv (a b : Q) : Exn + Q :=
  if Qeq_bool b 0 then inl ZeroDivisionError else inr (a / b)%Q.

(** [str(n)] for an int. *)
Definition str (n : Z) : string := NilZero.string_of_int (Z.to_int n).

(** [str(x)] for a float [x] that [round(_, 2)] returned: the decimal
    with two places nearest to [x] is the shortest one that reads back
    as [x]; it is printed without its trailing zeros, but with one
    decimal at least ("3.02", "3.1", "3.0").  Magnitudes from 1e16 on,
    which print with an exponent, and the negative zero are left out. *)
Definition str_float2 (x : Q) : string :=
  let n := round (x * 100) in
  let a := Z.abs n in
  let d := a mod 100 in
  (if n <? 0 then "-" else "") ++ str (a / 100) ++ "." ++
  (if d mod 10 =? 0 then str (d / 10)
   else (if d <? 10 then "0" else "") ++ str d).

(** [float(s)] on the decimal integer literals that [str] produces;
    any other text is a [ValueError]. *)
Definition float (s : string) : Exn + Z :=
  match NilZero.int_of_string s with
  | Some d => inr (Z.of_int d)
  | None => inl ValueError
  end.

(** [l.pop(0)]: the list without its first element; [IndexError] on an
    empty list. *)
Definition pop0 {A} (l : list A) : Exn + list A :=
  match l with
  | [] => inl IndexError
  | _ :: t => inr t
  end.

(** [l.append(x)]. *)
Definition append {A} (l : list A) (x : A) : list A := l ++ [x].

(** [l.insert(0, x)]. *)
Definition insert0 {A} (l : list A) (x : A) : list A := x :: l.

(** [range(0, stop, step)] as the list of its values; a zero step is a
    [ValueError]. *)
Fixpoint range_from (fuel : nat) (i stop step : Z) : list Z :=
  match fuel with
  | O => []
  | S fuel' => if i <? stop then i :: range_from fuel' (i + step) stop step else []
  end.

Definition range0 (stop step : Z) : Exn + list Z :=
  if step =? 0 then inl ValueError
  else if step <? 0
  then inr (map Z.opp (range_from (Z.to_nat (- stop)) 0 (- stop) (- step)))
  else inr (range_from (Z.to_nat stop) 0 stop step).

Definition Qltb (a b : Q) : bool := negb (Qle_bool b a).

End Py.

(** ** Widgets, events and the global state *)

Inductive Color : Type :=
| BLACK | WHITE | RED | YELLOW | GRAY | PURPLE | BLUE | CYAN | GREEN | ORANGE | MAROON.

(** A [Rect] of adafruit_display_shapes, reduced to the attributes that
    code.py assigns after construction. *)
Record Rect : Type := mkRect {
  r_fill : option Color;
  r_x : Z;
  r_y : Z
}.

(** A [Label] of adafruit_display_text. *)
Record Label : Type := mkLabel {
  l_text : string;
  l_color : option Color
}.

Inductive RectId : Type :=
| watchdog | co2_pointer | co2_pointer_shadow | aqi_pointer | aqi_pointer_shadow.

Inductive LabelId : Type :=
| title_label | status_label | co2_alarm_label | co2_alarm_value
| co2_temp_label | co2_temp_value | co2_humid_value | co2_qual_label
| co2_value | aqi_qual_label | aqi_value.

#[global] Instance RectId_eq_dec : EqDecision RectId.
Proof. solve_decision. Defined.

#[global] Instance LabelId_eq_dec : EqDecision LabelId.
Proof. solve_decision. Defined.

(** Effects on the outside world, newest first in [log]. *)
Inductive Event : Type :=
| Flash (text : string) (duration : Z)   (* a status message shown by flash_status *)
| Tone (freq : Z) (duration : Z)         (* simpleio.tone on the speaker *)
| Print (text : string).

Record World : Type := mkWorld {
  monotonic : Z;                 (* time.monotonic(), in ms *)
  polls : nat;                   (* reads of scd.data_available so far *)
  pm_reads : nat;                (* calls of pm25.read() so far *)
  TEMP_UNIT : string;
  TRANSLATE : bool;
  t0 : Z;                        (* sensor interval timer of the main loop *)
  sensor_valid : option bool;    (* None: the name is not bound yet *)
  rects : RectId -> Rect;
  labels : LabelId -> Label;
  co2_trend_chart : list Q;
  co2_trend_group : list Rect;
  aqi_trend_chart : list Q;
  aqi_trend_group : list Rect;
  pixels : option Color;         (* last pixels.fill, if any *)
  log : list Event
}.

Definition set_monotonic (v : Z) (w : World) : World :=
  mkWorld v (polls w) (pm_reads w) (TEMP_UNIT w) (TRANSLATE w) (t0 w) (sensor_valid w)
    (rects w) (labels w) (co2_trend_chart w) (co2_trend_group w)
    (aqi_trend_chart w) (aqi_trend_group w) (pixels w) (log w).

Definition set_polls (v : nat) (w : World) : World :=
  mkWorld (monotonic w) v (pm_reads w) (TEMP_UNIT w) (TRANSLATE w) (t0 w) (sensor_valid w)
    (rects w) (labels w) (co2_trend_chart w) (co2_trend_group w)
    (aqi_trend_chart w) (aqi_trend_group w) (pixels w) (log w).

Definition set_pm_reads (v : nat) (w : World) : World :=
  mkWorld (monotonic w) (polls w) v (TEMP_UNIT w) (TRANSLATE w) (t0 w) (sensor_valid w)
    (rects w) (labels w) (co2_trend_chart w) (co2_trend_group w)
    (aqi_trend_chart w) (aqi_trend_group w) (pixels w) (log w).

Definition set_TEMP_UNIT (v : string) (w : World) : World :=
  mkWorld (monotonic w) (polls w) (pm_reads w) v (TRANSLATE w) (t0 w) (sensor_valid w)
    (rects w) (labels w) (co2_trend_chart w) (co2_trend_group w)
    (aqi_trend_chart w) (aqi_trend_group w) (pixels w) (log w).

Definition set_TRANSLATE (v : bool) (w : World) : World :=
  mkWorld (monotonic w) (polls w) (pm_reads w) (TEMP_UNIT w) v (t0 w) (sensor_valid w)
    (rects w) (labels w) (co2_trend_chart w) (co2_trend_group w)
    (aqi_trend_chart w) (aqi_trend_group w) (pixels w) (log w).

Definition set_t0 (v : Z) (w : World) : World :=
  mkWorld (monotonic w) (polls w) (pm_reads w) (TEMP_UNIT w) (TRANSLATE w) v (sensor_valid w)
    (rects w) (labels w) (co2_trend_chart w) (co2_trend_group w)
    (aqi_trend_chart w) (aqi_trend_group w) (pixels w) (log w).

Definition set_sensor_valid (v : option bool) (w : World) : World :=
  mkWorld (monotonic w) (polls w) (pm_reads w) (TEMP_UNIT w) (TRANSLATE w) (t0 w) v
    (rects w) (labels w) (co2_trend_chart w) (co2_trend_group w)
    (aqi_trend_chart w) (aqi_trend_group w) (pixels w) (log w).

Definition set_rects (v : RectId -> Rect) (w : World) : World :=
  mkWorld (monotonic w) (polls w) (pm_reads w) (TEMP_UNIT w) (TRANSLATE w) (t0 w) (sensor_valid w)
    v (labels w) (co2_trend_chart w) (co2_trend_group w)
    (aqi_trend_chart w) (aqi_trend_group w) (pixels w) (log w).

Definition set_labels (v : LabelId -> Label) (w : World) : World :=
  mkWorld (monotonic w) (polls w) (pm_reads w) (TEMP_UNIT w) (TRANSLATE w) (t0 w) (sensor_valid w)
    (rects w) v (co2_trend_chart w) (co2_trend_group w)
    (aqi_trend_chart w) (aqi_trend_group w) (pixels w) (log w).

Definition set_co2_trend_chart (v : list Q) (w : World) : World :=
  mkWorld (monotonic w) (polls w) (pm_reads w) (TEMP_UNIT w) (TRANSLATE w) (t0 w) (sensor_valid w)
    (rects w) (labels w) v (co2_trend_group w)
    (aqi_trend_chart w) (aqi_trend_group w) (pixels w) (log w).

Definition set_co2_trend_group (v : list Rect) (w : World) : World :=
  mkWorld (monotonic w) (polls w) (pm_reads w) (TEMP_UNIT w) (TRANSLATE w) (t0 w) (sensor_valid w)
    (rects w) (labels w) (co2_trend_chart w) v
    (aqi_trend_chart w) (aqi_trend_group w) (pixels w) (log w).

Definition set_aqi_trend_chart (v : list Q) (w : World) : World :=
  mkWorld (monotonic w) (polls w) (pm_reads w) (TEMP_UNIT w) (TRANSLATE w) (t0 w) (sensor_valid w)
    (rects w) (labels w) (co2_trend_chart w) (co2_trend_group w)
    v (aqi_trend_group w) (pixels w) (log w).

Definition set_aqi_trend_group (v : list Rect) (w : World) : World :=
  mkWorld (monotonic w) (polls w) (pm_reads w) (TEMP_UNIT w) (TRANSLATE w) (t0 w) (sensor_valid w)
    (rects w) (labels w) (co2_trend_chart w) (co2_trend_group w)
    (aqi_trend_chart w) v (pixels w) (log w).

Definition set_pixels (v : option Color) (w : World) : World :=
  mkWorld (monotonic w) (polls w) (pm_reads w) (TEMP_UNIT w) (TRANSLATE w) (t0 w) (sensor_valid w)
    (rects w) (labels w) (co2_trend_chart w) (co2_trend_group w)
    (aqi_trend_chart w) (aqi_trend_group w) v (log w).

Definition set_log (v : list Event) (w : World) : World :=
  mkWorld (monotonic w) (polls w) (pm_reads w) (TEMP_UNIT w) (TRANSLATE w) (t0 w) (sensor_valid w)
    (rects w) (labels w) (co2_trend_chart w) (co2_trend_group w)
    (aqi_trend_chart w) (aqi_trend_group w) (pixels w) v.

(** Assignment to one entry of a widget table. *)
Definition upd {K V : Type} `{EqDecision K} (f : K -> V) (k : K) (v : V) : K -> V :=
  fun k' => if decide (k' = k) then v else f k'.

(** ** Outcomes and the state monad of the program *)

Inductive Result (A : Type) : Type :=
| Ok (a : A) (w : World)            (* returned normally *)
| Raised (e : Py.Exn) (w : World)   (* an uncaught exception propagates *)
| Running (w : World).              (* fuel spent: the loop is still executing *)

Arguments Ok {A} a w.
Arguments Raised {A} e w.
Arguments Running {A} w.

Definition M (A : Type) : Type := World -> Result A.

Definition ret {A} (a : A) : M A := fun w => Ok a w.

Definition raise {A} (e : Py.Exn) : M A := fun w => Raised e w.

Definition bind {A B} (m : M A) (k : A -> M B) : M B :=
  fun w =>
    match m w with
    | Ok a w' => k a w'
    | Raised e w' => Raised e w'
    | Running w' => Running w'
    end.

Definition gets {A} (f : World -> A) : M A := fun w => Ok (f w) w.

Definition modify (f : World -> World) : M unit := fun w => Ok tt (f w).

(** Lifting of a primitive that can raise. *)
Definition lift {A} (r : Py.Exn + A) : M A :=
  match r with
  | inl e => raise e
  | inr a => ret a
  end.

Declare Scope py_scope.
Delimit Scope py_scope with py.
Notation "'let!' x ':=' m 'in' k" := (bind m (fun x => k))
  (at level 10, x pattern, m at level 100, k at level 200) : py_scope.
Notation "m ';;' k" := (bind m (fun _ => k))
  (at level 100, k at level 200, right associativity) : py_scope.

(** ** Board, configuration and external collaborators *)

(** What the start-up code of code.py fixes once: the capability flags
    chosen from the board id and the sensor probes, the display size, and
    the constants imported from air_mon_config. *)
Record Config : Type := mkConfig {
  co2_sensor_exists : bool;
  aqi_sensor_exists : bool;
  has_speaker : bool;
  has_battery_mon : bool;
  has_neopixel : bool;
  WIDTH : Z;
  HEIGHT : Z;
  trend_points : Z;
  CO2_ALARM : Z * Color * string;   (* threshold in ppm, colour, label *)
  SENSOR_INTERVAL : Z               (* in ms *)
}.

(** The helper functions that code.py imports from
    cedargrove_unit_converter; their bodies are not part of code.py. *)
Record Library : Type := mkLibrary {
  co2_ppm_to_quality : Z -> bool * Z * Color * string;
  concentration_to_aqi : Q -> bool * Z * Color * string;
  celsius_to_fahrenheit : Z -> Q;
  interpret : bool -> string -> string
}.

(** The sensors.  [scd_data_available k] is the answer to the k-th read
    of [scd.data_available]; the measurement registers are indexed the
    same way.  [pm25 k] is the k-th call of [pm25.read()]: the time it
    takes and the "pm25 env" value, or [None] for a [RuntimeError]. *)
Record Env : Type := mkEnv {
  scd_data_available : nat -> bool;
  scd_CO2 : nat -> Q;
  scd_relative_humidity : nat -> Q;
  scd_temperature : nat -> Q;
  pm25 : nat -> N * option Z
}.

(** ** The program *)

Section Program.

Variable cfg : Config.
Variable lib : Library.
Variable env : Env.

Local Open Scope py_scope.

(** *** Elementary effects *)

Definition sleep (d : Z) : M unit :=
  modify (fun w => set_monotonic (monotonic w + d) w).

Definition emit (e : Event) : M unit :=
  modify (fun w => set_log (e :: log w) w).

Definition print (s : string) : M unit := emit (Print s).

Definition set_label_text (i : LabelId) (s : string) : M unit :=
  modify (fun w => set_labels (upd (labels w) i (mkLabel s (l_color (labels w i)))) w).

Definition set_label_color (i : LabelId) (c : option Color) : M unit :=
  modify (fun w => set_labels (upd (labels w) i (mkLabel (l_text (labels w i)) c)) w).

Definition set_rect_fill (i : RectId) (c : option Color) : M unit :=
  modify (fun w =>
    set_rects (upd (rects w) i (mkRect c (r_x (rects w i)) (r_y (rects w i)))) w).

Definition set_rect_x (i : RectId) (v : Z) : M unit :=
  modify (fun w =>
    set_rects (upd (rects w) i (mkRect (r_fill (rects w i)) v (r_y (rects w i)))) w).

Definition set_rect_y (i : RectId) (v : Z) : M unit :=
  modify (fun w =>
    set_rects (upd (rects w) i (mkRect (r_fill (rects w i)) (r_x (rects w i)) v)) w).

(** One read of [scd.data_available]. *)
Definition data_available : M bool :=
  fun w => Ok (scd_data_available env (polls w)) (set_polls (S (polls w)) w).

(** One call of [pm25.read()] followed by the lookup of "pm25 env". *)
Definition pm25_read : M (option Z) :=
  fun w =>
    Ok (snd (pm25 env (pm_reads w)))
       (set_pm_reads (S (pm_reads w))
          (set_monotonic (monotonic w + Z.of_N (fst (pm25 env (pm_reads w)))) w)).

(** *** Helpers of code.py *)

(** The [while] loop of [sample_aq_sensor] (a retry after a
    [RuntimeError] goes back to the loop test through [continue]).  The
    loop test compares whole milliseconds; the float test of the source
    agrees with it except when exactly 2.3 s have passed, where the
    rounding of the subtraction decides. *)
Fixpoint sample_loop (fuel : nat) (time_start : Z) (aq_samples : list Z)
  : M (list Z) :=
  fun w =>
    if monotonic w - time_start <=? 2300 then
      match fuel with
      | O => Running w
      | S fuel' =>
          (let! aqdata := pm25_read in
           match aqdata with
           | Some v =>
               sleep 1000 ;;
               sample_loop fuel' time_start (Py.append aq_samples v)
           | None =>
               print "Unable to read from sensor, retrying..." ;;
               sample_loop fuel' time_start aq_samples
           end) w
      end
    else Ok aq_samples w.

(** [sample_aq_sensor()].  The final [aq_samples.clear()] empties a
    list that is local to the call and is left out. *)
Definition sample_aq_sensor (fuel : nat) : M Q :=
  let aq_reading := 0 in
  let! time_start := gets monotonic in
  let! aq_samples := sample_loop fuel time_start [] in
  let aq_reading := fold_left Z.add aq_samples aq_reading in
  let! aq_reading :=
    lift (Py.truediv (inject_Z aq_reading) (inject_Z (Z.of_nat (length aq_samples)))) in
  ret aq_reading.

(** [play_tone]: the call of [simpleio.tone] is recorded in the log; the
    time that the library takes to play the tone is not counted. *)
Definition play_tone (freq duration : Z) : M unit :=
  if has_speaker cfg then emit (Tone freq duration) else ret tt.

(** [flash_status]: the message is on screen for [duration], then
    blanked for [duration]; the log keeps a record of what was shown. *)
Definition flash_status (text : string) (duration : Z) : M unit :=
  set_label_color status_label (Some WHITE) ;;
  set_label_text status_label text ;;
  emit (Flash text duration) ;;
  sleep duration ;;
  set_label_color status_label (Some BLACK) ;;
  sleep duration ;;
  set_label_text status_label "".

(** The module-level names of code.py that are bound to a [Rect] and
    moved after construction.  Looking up any other name is a
    [NameError]. *)
Definition global_rect (name : string) : Py.Exn + RectId :=
  if String.eqb name "watchdog" then inr watchdog
  else if String.eqb name "co2_pointer" then inr co2_pointer
  else if String.eqb name "co2_pointer_shadow" then inr co2_pointer_shadow
  else if String.eqb name "aqi_pointer" then inr aqi_pointer
  else if String.eqb name "aqi_pointer_shadow" then inr aqi_pointer_shadow
  else inl (Py.NameError name).

(** The [for] loop that redraws the bars of a trend chart: bar
    [len(chart) - i - 1] of the group shows [chart[i]]. *)
Fixpoint draw_trend (idx : list nat) (chart : list Q) (c : Color) (group : list Rect)
  : Py.Exn + list Rect :=
  match idx with
  | [] => inr group
  | i :: rest =>
      let j := (length chart - i - 1)%nat in
      match chart !! i, group !! j with
      | Some v, Some r =>
          draw_trend rest chart c
            (<[j := mkRect (Some c) (r_x r)
                      (HEIGHT cfg - Py.int (v * inject_Z (HEIGHT cfg)) + 1 - 3)]> group)
      | _, _ => inl Py.IndexError
      end
  end.

(** [chart.pop(0)] followed by [chart.append(v)]. *)
Definition trend_push (chart : list Q) (v : Q) : Py.Exn + list Q :=
  match Py.pop0 chart with
  | inl e => inl e
  | inr rest => inr (Py.append rest v)
  end.

(** The busy-wait at the head of [update_co2_image_frame]; [t_0] is the
    function's local [t0]. *)
Fixpoint co2_wait (fuel : nat) (blocking : bool) (wait_time t_0 : Z) : M unit :=
  fun w =>
    if blocking then
      (let! avail := data_available in
       if negb avail then
         let! t := gets monotonic in
         if t_0 - t <? wait_time then
           match fuel with
           | O => fun w' => Running w'
           | S fuel' =>
               set_rect_fill watchdog (Some RED) ;;
               let! tr := gets TRANSLATE in
               flash_status (interpret lib tr "WARMUP") 500 ;;
               co2_wait fuel' blocking wait_time t_0
           end
         else ret tt
       else ret tt) w
    else Ok tt w.

(** Lines 173-235.  The pointer position is taken from the exact
    product [sensor_co2_norm * HEIGHT]; where that product is a whole
    number the binary64 product can fall just below it, and the pointer
    of the source then sits one pixel lower. *)
Definition update_co2_image_frame (fuel : nat) (blocking : bool) (wait_time : Z)
  : M bool :=
  let sensor_data_valid := true in
  if co2_sensor_exists cfg then
    let! t_0 := gets monotonic in
    co2_wait fuel blocking wait_time t_0 ;;
    let! avail := data_available in
    if avail then
      set_rect_fill watchdog (Some YELLOW) ;;
      let! k := gets polls in
      let sensor_co2 := Py.round (scd_CO2 env k) in
      let '(sensor_data_valid, sensor_co2, qual_color, label) :=
        co2_ppm_to_quality lib sensor_co2 in
      set_label_color co2_qual_label (Some qual_color) ;;
      let sensor_co2_norm := (inject_Z sensor_co2 / 6000)%Q in
      let sensor_rh := Py.round (scd_relative_humidity env k) in
      let sensor_temp := Py.round (scd_temperature env k) in
      let! unit := gets TEMP_UNIT in
      let sensor_temp :=
        if String.eqb unit "F"
        then Py.round (celsius_to_fahrenheit lib sensor_temp)
        else sensor_temp in
      (if sensor_co2 <? 6000 then
         set_rect_fill co2_pointer (Some GRAY) ;;
         set_rect_y co2_pointer
           (HEIGHT cfg - Py.int (sensor_co2_norm * inject_Z (HEIGHT cfg)) - 3) ;;
         let! y := gets (fun w => r_y (rects w co2_pointer)) in
         set_rect_y co2_pointer_shadow y
       else
         set_rect_fill co2_pointer (Some (snd (fst (CO2_ALARM cfg)))) ;;
         let! shadow := lift (global_rect "co2_poointer_shadow") in
         set_rect_y shadow 0 ;;
         set_rect_y co2_pointer 0 ;;
         let! tr := gets TRANSLATE in
         flash_status (interpret lib tr "OVERRANGE") 750) ;;
      let! tr := gets TRANSLATE in
      set_label_text co2_qual_label (interpret lib tr label) ;;
      set_label_text co2_value (Py.str sensor_co2) ;;
      set_label_text co2_humid_value (Py.str sensor_rh) ;;
      set_label_text co2_temp_value (Py.str sensor_temp) ;;
      set_label_text co2_alarm_value (Py.str (fst (fst (CO2_ALARM cfg)))) ;;
      let! chart := gets co2_trend_chart in
      let! group := gets co2_trend_group in
      let! group := lift (draw_trend (seq 0 (length chart)) chart GRAY group) in
      modify (set_co2_trend_group group) ;;
      let! chart := lift (trend_push chart sensor_co2_norm) in
      modify (set_co2_trend_chart chart) ;;
      ret sensor_data_valid
    else ret sensor_data_valid
  else ret sensor_data_valid.

Definition update_aqi_image_frame (fuel : nat) (blocking : bool) (wait_time : Z)
  : M bool :=
  let sensor_data_valid := true in
  if aqi_sensor_exists cfg then
    let! sensor_pm25 := sample_aq_sensor fuel in
    let '(flag, sensor_aqi, qual_color, label) := concentration_to_aqi lib sensor_pm25 in
    set_label_color aqi_qual_label (Some qual_color) ;;
    let sensor_aqi_norm := (inject_Z sensor_aqi / 500)%Q in
    (if sensor_aqi <? 500 then
       set_rect_fill aqi_pointer (Some PURPLE) ;;
       set_rect_y aqi_pointer
         (HEIGHT cfg - Py.int (sensor_aqi_norm * inject_Z (HEIGHT cfg)) - 3) ;;
       let! y := gets (fun w => r_y (rects w aqi_pointer)) in
       set_rect_y aqi_pointer_shadow y
     else
       set_rect_fill aqi_pointer (Some RED) ;;
       let! shadow := lift (global_rect "aqi_pointer_shadow") in
       set_rect_y shadow 0 ;;
       set_rect_y aqi_pointer 0 ;;
       let! tr := gets TRANSLATE in
       flash_status (interpret lib tr "OVERRANGE") 750) ;;
    let! tr := gets TRANSLATE in
    set_label_text aqi_qual_label (interpret lib tr label) ;;
    set_label_text aqi_value (Py.str sensor_aqi) ;;
    let! chart := gets aqi_trend_chart in
    let! group := gets aqi_trend_group in
    let! group := lift (draw_trend (seq 0 (length chart)) chart PURPLE group) in
    modify (set_aqi_trend_group group) ;;
    let! chart := lift (trend_push chart sensor_aqi_norm) in
    modify (set_aqi_trend_chart chart) ;;
    ret sensor_data_valid
  else ret sensor_data_valid.

(** *** Start-up: the trend charts and the first acquisition *)

(** The loop that fills a trend chart and its group of bars (the same
    code for both metrics). *)
Definition init_trend : Py.Exn + (list Q * list Rect) :=
  match Py.truediv (inject_Z (WIDTH cfg - 28)) (inject_Z (trend_points cfg)) with
  | inl e => inl e
  | inr q =>
      let point_width := Py.int q in
      match Py.range0 (WIDTH cfg - 28) point_width with
      | inl e => inl e
      | inr idx =>
          inr (fold_left
                 (fun acc i =>
                    (Py.insert0 (fst acc) (inject_Z (HEIGHT cfg)),
                     Py.append (snd acc)
                       (mkRect None (WIDTH cfg - 28 - i) (HEIGHT cfg - 6))))
                 idx ([], []))
      end
  end.

(** The "primary process setup": the first, blocking, acquisition.  The
    commands sent to the SCD-30 before it ([scd.reset()], the measurement
    interval) act on the device only and are left out. *)
Definition setup (fuel : nat) : M unit :=
  (if co2_sensor_exists cfg then
     let! v := update_co2_image_frame fuel true 3000 in
     modify (set_sensor_valid (Some v))
   else
     let! tr := gets TRANSLATE in
     flash_status (interpret lib tr "NO CO2 SENSOR") 2000) ;;
  (if aqi_sensor_exists cfg then
     let! _ := update_aqi_image_frame fuel true 3000 in ret tt
   else
     let! tr := gets TRANSLATE in
     flash_status (interpret lib tr "NO AQI SENSOR") 2000) ;;
  play_tone 440 100 ;;
  play_tone 880 100 ;;
  let! t := gets monotonic in
  modify (set_t0 t).

(** *** One pass of the primary process loop *)

(** Lines 626-633: the CO2 alarm. *)
Definition co2_alarm : M unit :=
  if co2_sensor_exists cfg then
    let! txt := gets (fun w => l_text (labels w co2_value)) in
    if negb (String.eqb txt " ") then
      let! v := lift (Py.float txt) in
      if fst (fst (CO2_ALARM cfg)) <=? v then
        let! tr := gets TRANSLATE in
        flash_status (interpret lib tr "ALARM") 750 ;;
        (if has_neopixel cfg then modify (set_pixels (Some RED)) else ret tt) ;;
        play_tone 880 15 ;;
        (if has_neopixel cfg then modify (set_pixels (Some BLACK)) else ret tt)
      else ret tt
    else ret tt
  else ret tt.

(** [round(battery_mon.value * 6.6 / 0xFFF0, 2)]: the product and the
    quotient are float operations on the 16-bit reading of the ADC. *)
Definition battery_volts (raw : Z) : Q :=
  Py.round2 (Py.fl (Py.fl (inject_Z raw * Py.fl 6.6) / inject_Z 0xFFF0))%Q.

(** Lines 635-644: the battery monitor. *)
Definition battery_monitor (raw : Z) : M unit :=
  if has_battery_mon cfg then
    let volts := battery_volts raw in
    let! sv := gets sensor_valid in
    match sv with
    | None => raise (Py.NameError "sensor_valid")
    | Some valid =>
        if negb valid && Py.Qltb volts (Py.fl 3.3) then
          play_tone 880 30 ;;
          let! tr := gets TRANSLATE in
          flash_status (interpret lib tr "LOW BATTERY") 1000 ;;
          flash_status (Py.str_float2 volts ++ " volts") 1000
        else ret tt
    end
  else ret tt.

(** Lines 585-613: the long-press actions of the three buttons.  The
    recalibration command itself goes to the SCD-30; the model keeps the
    message that is printed after it. *)
Definition buttons (button_pressed : string) (hold_time : Z) : M unit :=
  (if String.eqb button_pressed "calibrate" then
     if 1000 <=? hold_time then
       (if co2_sensor_exists cfg then
          let! tr := gets TRANSLATE in
          flash_status (interpret lib tr "CALIBRATE") 500 ;;
          print "recal ref: 400"
        else
          let! tr := gets TRANSLATE in
          flash_status (interpret lib tr "NO CO2 SENSOR") 500) ;;
       play_tone 440 100
     else ret tt
   else ret tt) ;;
  (if String.eqb button_pressed "temperature" then
     if 1000 <=? hold_time then
       let! tr := gets TRANSLATE in
       flash_status (interpret lib tr "TEMPERATURE") 500 ;;
       let! unit := gets TEMP_UNIT in
       (if String.eqb unit "F" then modify (set_TEMP_UNIT "C")
        else modify (set_TEMP_UNIT "F")) ;;
       let! unit := gets TEMP_UNIT in
       set_label_text co2_temp_label ("°" ++ unit) ;;
       play_tone 440 100
     else ret tt
   else ret tt) ;;
  (if String.eqb button_pressed "language" then
     if 1000 <=? hold_time then
       let! tr := gets TRANSLATE in
       flash_status (interpret lib tr "LANGUAGE") 500 ;;
       modify (set_TRANSLATE (negb tr)) ;;
       let! tr := gets TRANSLATE in
       set_label_text title_label (interpret lib tr "Air Quality") ;;
       set_label_text co2_alarm_label (interpret lib tr (snd (CO2_ALARM cfg))) ;;
       play_tone 440 100 ;;
       (if tr then flash_status (interpret lib true "ENGLISH") 500
        else flash_status "ENGLISH" 500)
     else ret tt
   else ret tt).

(** One iteration of [while True]: the panel's answer and the ADC value
    of the battery monitor are the inputs of the pass.  The test of the
    interval compares whole milliseconds, and the watchdog position is
    taken from the exact quotient; where ten times that quotient is a
    whole number the binary64 value can fall just below it, one pixel
    to the left. *)
Definition loop_pass (fuel : nat) (button_pressed : string) (hold_time : Z)
    (battery_raw : Z) : M unit :=
  buttons button_pressed hold_time ;;
  let! t := gets monotonic in
  let! t_0 := gets t0 in
  (if t_0 <? t - SENSOR_INTERVAL cfg then
     let! v := update_co2_image_frame fuel false 3000 in
     modify (set_sensor_valid (Some v)) ;;
     let! _ := update_aqi_image_frame fuel false 3000 in
     let! t := gets monotonic in
     modify (set_t0 t)
   else
     set_rect_fill watchdog (Some BLUE) ;;
     let! frac :=
       lift (Py.truediv (inject_Z (t - t_0)) (inject_Z (SENSOR_INTERVAL cfg))) in
     set_rect_x watchdog (Py.int (frac * 10) - 10) ;;
     let! wx := gets (fun w => r_x (rects w watchdog)) in
     set_rect_y watchdog wx) ;;
  co2_alarm ;;
  battery_monitor battery_raw.

End Program.

(** ** Concrete instances used to run the embedding *)

(** Modelled from the spec: the classifiers [co2_ppm_to_quality] and
    [concentration_to_aqi], the conversion [celsius_to_fahrenheit] and
    [interpret] live in cedargrove_unit_converter, which is not part of
    code.py.  The tiers are those of the scales that code.py draws
    (1000/2000/5000/6000 ppm and 50/100/150/200/300/500 AQI); a CO2 value
    under 100 ppm is flagged invalid (the battery monitor's docstring);
    the value is handed back unchanged.  Every theorem of this file is
    stated for an arbitrary [Library]; this one only serves to evaluate
    the program on concrete inputs. *)
Definition sample_library : Library :=
  mkLibrary
    (fun ppm =>
       if ppm <? 1000 then (100 <=? ppm, ppm, GREEN, "GOOD")
       else if ppm <? 2000 then (true, ppm, YELLOW, "POOR")
       else if ppm <? 5000 then (true, ppm, ORANGE, "WARNING")
       else if ppm <? 6000 then (true, ppm, RED, "DANGER")
       else (true, ppm, RED, "OVERRANGE"))
    (fun conc =>
       let aqi := Py.round conc in
       if aqi <? 50 then (true, aqi, GREEN, "GOOD")
       else if aqi <? 100 then (true, aqi, YELLOW, "MODERATE")
       else if aqi <? 150 then (true, aqi, ORANGE, "SENSITIVE")
       else if aqi <? 200 then (true, aqi, RED, "UNHEALTHY")
       else if aqi <? 300 then (true, aqi, PURPLE, "V UNHEALTHY")
       else if aqi <? 500 then (true, aqi, MAROON, "HAZARDOUS")
       else (true, aqi, MAROON, "OVERRANGE"))
    (fun c => (inject_Z c * 9 / 5 + 32)%Q)
    (fun _ s => s).

(** A PyBadge (160 x 128 display, speaker, battery monitor, NeoPixels) with
    both sensors connected; alarm at 2500 ppm, one acquisition every 2 s. *)
Definition pybadge : Config :=
  mkConfig true true true true true 160 128 40 (2500, RED, "ALARM") 2000.

(** What the module-level code of code.py has printed and played when
    it reaches the primary process setup, latest first: the board id,
    the messages of the sensor probes that failed (a PM2.5 sensor that
    is present is taken to have answered on I2C), and the tone of line
    282. *)
Definition startup_log (cfg : Config) (board_type : string) : list Event :=
  ((if has_speaker cfg then [Tone 880 100] else []) ++
   (if aqi_sensor_exists cfg then []
    else [Print "--  NOT CONNECTED   --"; Print "-- PM25 UART SENSOR --";
          Print "--  NOT CONNECTED  --"; Print "-- PM25 I2C SENSOR --"]) ++
   (if co2_sensor_exists cfg then []
    else [Print "--  NOT CONNECTED   --"; Print "-- SCD30 I2C SENSOR --"]) ++
   [Print ("Board: " ++ board_type)])%list.

(** The globals as the module-level code of code.py leaves them just
    before the primary process setup; the NeoPixels, where there are
    any, have been cleared ([pixels.fill(0x000000)], black). *)
Definition initial_world (cfg : Config) (board_type : string)
    (chart : list Q) (group : list Rect) : World :=
  mkWorld 0 0 0 "C" false 0 None
    (fun i =>
       match i with
       | watchdog => mkRect None 1 1
       | co2_pointer | co2_pointer_shadow => mkRect None (WIDTH cfg - 25) (HEIGHT cfg + 2)
       | aqi_pointer => mkRect (Some CYAN) (WIDTH cfg - 12) (HEIGHT cfg + 2)
       | aqi_pointer_shadow => mkRect None (WIDTH cfg - 12) (HEIGHT cfg + 2)
       end)
    (fun i =>
       match i with
       | title_label => mkLabel "Air Quality" (Some CYAN)
       | status_label => mkLabel " " None
       | co2_alarm_label => mkLabel (snd (CO2_ALARM cfg)) (Some (snd (fst (CO2_ALARM cfg))))
       | co2_alarm_value =>
           mkLabel (if co2_sensor_exists cfg then Py.str (fst (fst (CO2_ALARM cfg))) else "----")
                   (Some (snd (fst (CO2_ALARM cfg))))
       | co2_temp_label => mkLabel ("°" ++ "C") (Some CYAN)
       | co2_temp_value => mkLabel (if co2_sensor_exists cfg then " " else "--") (Some CYAN)
       | co2_humid_value => mkLabel (if co2_sensor_exists cfg then " " else "--") (Some CYAN)
       | co2_qual_label => mkLabel " " None
       | co2_value => mkLabel (if co2_sensor_exists cfg then " " else "---") (Some WHITE)
       | aqi_qual_label => mkLabel " " None
       | aqi_value => mkLabel (if aqi_sensor_exists cfg then " " else "---") (Some WHITE)
       end)
    chart group chart group
    (if has_neopixel cfg then Some BLACK else None)
    (startup_log cfg board_type).

Definition pybadge_world : World :=
  match init_trend pybadge with
  | inr (chart, group) => initial_world pybadge "pybadge" chart group
  | inl _ => initial_world pybadge "pybadge" [] []
  end.

(** The PyBadge once the CO2 field shows the reading [ppm]. *)
Definition pybadge_showing (ppm : Z) : World :=
  set_labels (upd (labels pybadge_world) co2_value (mkLabel (Py.str ppm) (Some WHITE)))
    pybadge_world.

(** A CO2 sensor that never has data, and a PM2.5 sensor whose every read
    fails after 100 ms. *)
Definition silent_env : Env :=
  mkEnv (fun _ => false) (fun _ => 0%Q) (fun _ => 0%Q) (fun _ => 0%Q)
        (fun _ => (100%N, None)).

(** Sensors that answer at once: CO2 readings from [co2], and PM2.5 reads
    taken from [pm] (a read beyond the script repeats 0), each taking
    [lat] ms. *)
Definition scripted_env (co2 : nat -> Q) (lat : N) (pm : list (option Z)) : Env :=
  mkEnv (fun _ => true) co2 (fun _ => 45.4%Q) (fun _ => 21.6%Q)
        (fun k => (lat, nth k pm (Some 0))).

(** ** Notions used to state the properties *)

(** A run of pushes on a trend chart, in arrival order. *)
Fixpoint push_all (chart : list Q) (vs : list Q) : Py.Exn + list Q :=
  match vs with
  | [] => inr chart
  | v :: vs' =>
      match trend_push chart v with
      | inl e => inl e
      | inr chart' => push_all chart' vs'
      end
  end.

(** [clamp x lo hi]. *)
Definition clamp (x lo hi : Q) : Q := Qmax lo (Qmin hi x).

(** The status message [text] was flashed between [w] and [w']. *)
Definition flashed (text : string) (duration : Z) (w w' : World) : Prop :=
  exists later earlier,
    log w' = (later ++ Flash text duration :: earlier ++ log w)%list.

(** The [n] calls of [pm25.read()] that follow the first [k]. *)
Definition reads_from (env : Env) (k n : nat) : list (N * option Z) :=
  map (pm25 env) (seq k n).

(** The values that a run of reads delivered, in order: a failed read
    contributes nothing. *)
Fixpoint successes (evs : list (N * option Z)) : list Z :=
  match evs with
  | [] => []
  | (_, Some v) :: evs' => v :: successes evs'
  | (_, None) :: evs' => successes evs'
  end.

(** The time that a run of reads takes inside the sampling loop: the
    duration of each read, and one second of sleep after each successful
    one only. *)
Fixpoint elapsed (evs : list (N * option Z)) : Z :=
  match evs with
  | [] => 0
  | (lat, Some _) :: evs' => Z.of_N lat + 1000 + elapsed evs'
  | (lat, None) :: evs' => Z.of_N lat + elapsed evs'
  end.

Definition sumZ (l : list Z) : Z := fold_right Z.add 0 l.

(** The samples collected by the window that starts in [w]. *)
Definition window_samples (env : Env) (fuel : nat) (w : World) : list Z :=
  match sample_loop env fuel (monotonic w) [] w with
  | Ok samples _ => samples
  | _ => []
  end.

(** [m], started in [w], returns a value and a world that satisfy [Q]. *)
Definition wp {A : Type} (m : M A) (Q : A -> World -> Prop) (w : World) : Prop :=
  exists a w', m w = Ok a w' /\ Q a w'.

(** The sensor bookkeeping, the configuration and the trend data agree
    in [w] and [w']: only widgets, clock, pixels and log may differ. *)
Definition same_data (w w' : World) : Prop :=
  polls w' = polls w /\ pm_reads w' = pm_reads w /\
  TEMP_UNIT w' = TEMP_UNIT w /\ TRANSLATE w' = TRANSLATE w /\
  t0 w' = t0 w /\ sensor_valid w' = sensor_valid w /\
  co2_trend_chart w' = co2_trend_chart w /\ co2_trend_group w' = co2_trend_group w /\
  aqi_trend_chart w' = aqi_trend_chart w /\ aqi_trend_group w' = aqi_trend_group w.

(** [m] always returns and only draws, waits or logs. *)
Definition display_only {A : Type} (m : M A) : Prop :=
  forall w, exists a w', m w = Ok a w' /\ same_data w w'.

(** Every value that [m] returns satisfies [P]. *)
Definition returns_only {A : Type} (P : A -> Prop) (m : M A) : Prop :=
  forall w a w', m w = Ok a w' -> P a.

(** Nothing but the clock, the count of PM2.5 reads and the log differs
    between [w] and [w']. *)
Definition untouched (w w' : World) : Prop :=
  polls w' = polls w /\ TEMP_UNIT w' = TEMP_UNIT w /\ TRANSLATE w' = TRANSLATE w /\
  t0 w' = t0 w /\ sensor_valid w' = sensor_valid w /\
  rects w' = rects w /\ labels w' = labels w /\
  co2_trend_chart w' = co2_trend_chart w /\ co2_trend_group w' = co2_trend_group w /\
  aqi_trend_chart w' = aqi_trend_chart w /\ aqi_trend_group w' = aqi_trend_group w /\
  pixels w' = pixels w.

(** Whenever [m] returns, the worlds before and after are related by [R]. *)
Definition on_return {A : Type} (R : World -> World -> Prop) (m : M A) : Prop :=
  forall w a w', m w = Ok a w' -> R w w'.

(** The trend data and the configuration are the same in [w] and [w']. *)
Definition kept (w w' : World) : Prop :=
  TEMP_UNIT w' = TEMP_UNIT w /\ TRANSLATE w' = TRANSLATE w /\
  t0 w' = t0 w /\ sensor_valid w' = sensor_valid w /\
  co2_trend_chart w' = co2_trend_chart w /\ co2_trend_group w' = co2_trend_group w /\
  aqi_trend_chart w' = aqi_trend_chart w /\ aqi_trend_group w' = aqi_trend_group w.

(** What a CO2 update may change besides widgets, clock and log: the
    contents, not the sizes, of the CO2 chart and of its bars. *)
Definition steady_co2 (w w' : World) : Prop :=
  TEMP_UNIT w' = TEMP_UNIT w /\ TRANSLATE w' = TRANSLATE w /\
  t0 w' = t0 w /\ sensor_valid w' = sensor_valid w /\
  length (co2_trend_chart w') = length (co2_trend_chart w) /\
  length (co2_trend_group w') = length (co2_trend_group w) /\
  aqi_trend_chart w' = aqi_trend_chart w /\ aqi_trend_group w' = aqi_trend_group w.

(** The same for a particulate update. *)
Definition steady_aqi (w w' : World) : Prop :=
  TEMP_UNIT w' = TEMP_UNIT w /\ TRANSLATE w' = TRANSLATE w /\
  t0 w' = t0 w /\ sensor_valid w' = sensor_valid w /\
  co2_trend_chart w' = co2_trend_chart w /\ co2_trend_group w' = co2_trend_group w /\
  length (aqi_trend_chart w') = length (aqi_trend_chart w) /\
  length (aqi_trend_group w') = length (aqi_trend_group w).

(** The four trend lists have the same sizes in [w] and [w']. *)
Definition same_lengths (w w' : World) : Prop :=
  length (co2_trend_chart w') = length (co2_trend_chart w) /\
  length (co2_trend_group w') = length (co2_trend_group w) /\
  length (aqi_trend_chart w') = length (aqi_trend_chart w) /\
  length (aqi_trend_group w') = length (aqi_trend_group w).

(** [while True]: the passes of the primary process loop, one for each
    answer of the button panel and reading of the battery monitor. *)
Fixpoint main_loop (cfg : Config) (lib : Library) (env : Env) (fuel : nat)
    (inputs : list (string * Z * Z)) : M unit :=
  match inputs with
  | [] => ret tt
  | (button_pressed, hold_time, battery_raw) :: rest =>
      bind (loop_pass cfg lib env fuel button_pressed hold_time battery_raw)
           (fun _ => main_loop cfg lib env fuel rest)
  end.

(** The primary process: the setup, then the loop. *)
Definition program (cfg : Config) (lib : Library) (env : Env) (fuel : nat)
    (inputs : list (string * Z * Z)) : M unit :=
  bind (setup cfg lib env fuel) (fun _ => main_loop cfg lib env fuel inputs).

(** * Properties *)

(** ** Python primitives *)

Lemma round_bounds (q : Q) :
  (inject_Z (Py.round q) - (1 # 2) <= q /\ q <= inject_Z (Py.round q) + (1 # 2))%Q.
Proof.
  destruct q as [n d]. unfold Py.round. cbn [Qnum Qden].
  pose proof (Z.div_mod n (Z.pos d) ltac:(lia)) as E.
  pose proof (Z.mod_pos_bound n (Z.pos d) ltac:(lia)) as B.
  set (fl := n / Z.pos d) in *. set (r := n mod Z.pos d) in *.
  assert (Hm : forall z, (inject_Z z - (1 # 2) <= n # d)%Q <-> (2 * z - 1) * Z.pos d <= 2 * n).
  { intros z. unfold Qle, Qminus, Qplus, Qopp, inject_Z. cbn. lia. }
  assert (Hp : forall z, (n # d <= inject_Z z + (1 # 2))%Q <-> 2 * n <= (2 * z + 1) * Z.pos d).
  { intros z. unfold Qle, Qplus, inject_Z. cbn. lia. }
  rewrite Hm, Hp.
  destruct (2 * r <? Z.pos d) eqn:H1; [apply Z.ltb_lt in H1; nia|].
  apply Z.ltb_ge in H1.
  destruct (Z.pos d <? 2 * r) eqn:H2; [apply Z.ltb_lt in H2; nia|].
  apply Z.ltb_ge in H2.
  destruct (Z.even fl); nia.
Qed.

(** Powers of two, and the rounding error of [Py.fl]. *)

Lemma pow2_nonneg_eq (e : Z) : 0 <= e -> Py.pow2 e = inject_Z (2 ^ e).
Proof.
  intros H. unfold Py.pow2. replace (0 <=? e) with true by (symmetry; apply Z.leb_le; lia).
  now rewrite Z.shiftl_1_l.
Qed.

Lemma pow2_neg_eq (e : Z) : e < 0 -> Py.pow2 e = Qmake 1 (Z.to_pos (2 ^ (- e))).
Proof.
  intros H. unfold Py.pow2. replace (0 <=? e) with false by (symmetry; apply Z.leb_gt; lia).
  now rewrite Z.shiftl_1_l.
Qed.

Lemma pow2_pos (e : Z) : (0 < Py.pow2 e)%Q.
Proof.
  destruct (Z.le_gt_cases 0 e) as [H|H].
  - rewrite pow2_nonneg_eq by exact H. unfold Qlt, inject_Z. cbn.
    pose proof (Z.pow_pos_nonneg 2 e ltac:(lia) H). lia.
  - rewrite pow2_neg_eq by lia. reflexivity.
Qed.

Lemma pow2_add (a b : Z) : (Py.pow2 (a + b) == Py.pow2 a * Py.pow2 b)%Q.
Proof.
  assert (P : forall k, 0 <= k -> Z.pos (Z.to_pos (2 ^ k)) = 2 ^ k).
  { intros k Hk. apply Z2Pos.id. apply Z.pow_pos_nonneg; lia. }
  destruct (Z.le_gt_cases 0 a) as [Ha|Ha], (Z.le_gt_cases 0 b) as [Hb|Hb],
           (Z.le_gt_cases 0 (a + b)) as [Hs|Hs]; try lia;
    rewrite ?(pow2_nonneg_eq a), ?(pow2_nonneg_eq b), ?(pow2_nonneg_eq (a + b)),
            ?(pow2_neg_eq a), ?(pow2_neg_eq b), ?(pow2_neg_eq (a + b)) by lia;
    unfold Qeq, Qmult, inject_Z; cbn [Qnum Qden];
    rewrite ?Pos2Z.inj_mul, ?P by lia.
  - rewrite Z.pow_add_r by lia. lia.
  - replace (2 ^ a) with (2 ^ (a + b) * 2 ^ (- b))
      by (rewrite <- Z.pow_add_r by lia; f_equal; lia).
    lia.
  - replace (2 ^ (- b)) with (2 ^ a * 2 ^ (- (a + b)))
      by (rewrite <- Z.pow_add_r by lia; f_equal; lia).
    lia.
  - replace (2 ^ b) with (2 ^ (a + b) * 2 ^ (- a))
      by (rewrite <- Z.pow_add_r by lia; f_equal; lia).
    lia.
  - replace (2 ^ (- a)) with (2 ^ b * 2 ^ (- (a + b)))
      by (rewrite <- Z.pow_add_r by lia; f_equal; lia).
    lia.
  - replace (- (a + b)) with (- a + - b) by lia. rewrite Z.pow_add_r by lia. lia.
Qed.

(** The bit lengths of numerator and denominator bound a quotient from
    below. *)
Lemma log2_lower (n : Z) (d : positive) :
  0 < n -> (Py.pow2 (Z.log2 n - Z.log2 (Z.pos d) - 1) <= n # d)%Q.
Proof.
  intros Hn.
  destruct (Z.log2_spec n Hn) as [Hn1 _].
  destruct (Z.log2_spec (Z.pos d) ltac:(lia)) as [_ Hd2].
  pose proof (Z.log2_nonneg n) as Ln. pose proof (Z.log2_nonneg (Z.pos d)) as Ld.
  set (ln := Z.log2 n) in *. set (ld := Z.log2 (Z.pos d)) in *.
  destruct (Z.le_gt_cases 0 (ln - ld - 1)) as [H|H].
  - rewrite pow2_nonneg_eq by exact H. unfold Qle, inject_Z. cbn [Qnum Qden].
    assert (E : 2 ^ ln = 2 ^ (ln - ld - 1) * 2 ^ Z.succ ld)
      by (rewrite <- Z.pow_add_r by lia; f_equal; lia).
    pose proof (Z.pow_pos_nonneg 2 (ln - ld - 1) ltac:(lia) H). nia.
  - rewrite pow2_neg_eq by exact H. unfold Qle. cbn [Qnum Qden].
    rewrite Z2Pos.id by (apply Z.pow_pos_nonneg; lia).
    assert (E : 2 ^ Z.succ ld = 2 ^ ln * 2 ^ (- (ln - ld - 1)))
      by (rewrite <- Z.pow_add_r by lia; f_equal; lia).
    pose proof (Z.pow_pos_nonneg 2 (- (ln - ld - 1)) ltac:(lia) ltac:(lia)). nia.
Qed.

(** Rounding to binary64 moves a non-negative number by at most
    [2 ^ -53] of its value (plus [2 ^ -1075] among the subnormal
    numbers), and keeps it non-negative. *)
Lemma fl_error (q : Q) :
  (0 <= q)%Q ->
  (0 <= Py.fl q /\
   Py.fl q - q <= q * (1 # 9007199254740992) + Py.pow2 (-1075) /\
   q - Py.fl q <= q * (1 # 9007199254740992) + Py.pow2 (-1075))%Q.
Proof.
  intros Hq.
  assert (Ha : (Qabs q == q)%Q) by (now apply Qabs_pos).
  assert (Hd : (0 < Py.pow2 (-1075))%Q) by apply pow2_pos.
  unfold Py.fl.
  destruct (Qeq_bool (Qabs q) 0) eqn:Hz.
  { apply Qeq_bool_eq in Hz. rewrite Ha in Hz. rewrite Hz.
    split; [apply Qle_refl|]. split; lra. }
  apply Qeq_bool_neq in Hz.
  replace (Qle_bool 0 q) with true by (symmetry; now apply Qle_bool_iff).
  assert (Hnum : 0 < Qnum (Qabs q)).
  { destruct q as [n d]. unfold Qle in Hq. cbn in *.
    assert (n <> 0). { intros ->. apply Hz. reflexivity. } lia. }
  set (a := Qabs q) in *.
  set (e0 := Z.log2 (Qnum a) - Z.log2 (Z.pos (Qden a)) - 52).
  set (e1 := if Qle_bool (Py.pow2 (52 + e0)) a then e0 else e0 - 1).
  assert (HA : (Py.pow2 (52 + e1) <= a)%Q).
  { subst e1. destruct (Qle_bool (Py.pow2 (52 + e0)) a) eqn:Ht.
    - now apply Qle_bool_iff.
    - replace (52 + (e0 - 1)) with (Z.log2 (Qnum a) - Z.log2 (Z.pos (Qden a)) - 1)
        by (subst e0; lia).
      destruct a as [n d]. cbn [Qnum Qden] in *. now apply log2_lower. }
  set (e := Z.max e1 (-1074)).
  assert (HC : (Py.pow2 e <= a * (1 # 4503599627370496) + Py.pow2 (-1074))%Q).
  { pose proof (pow2_pos (-1074)) as P1. pose proof (pow2_pos e1) as P2.
    pose proof (pow2_add 52 e1) as E.
    assert (E52 : (Py.pow2 52 == inject_Z 4503599627370496)%Q) by reflexivity.
    rewrite E52 in E.
    assert (Hq0 : (0 < a)%Q).
    { rewrite Ha. destruct (Qle_lt_or_eq _ _ Hq) as [H|H]; [exact H|].
      exfalso. apply Hz. rewrite Ha. now symmetry. }
    subst e. destruct (Z.max_spec e1 (-1074)) as [[_ ->]|[_ ->]].
    - lra.
    - assert (Py.pow2 e1 <= a * (1 # 4503599627370496))%Q; [|lra].
      rewrite E in HA.
      assert (E1 : (Py.pow2 e1
                    == inject_Z 4503599627370496 * Py.pow2 e1 * (1 # 4503599627370496))%Q).
      { assert (E2 : (inject_Z 4503599627370496 * (1 # 4503599627370496) == 1)%Q)
          by reflexivity.
        rewrite (Qmult_comm (inject_Z 4503599627370496)), <- Qmult_assoc, E2.
        now rewrite Qmult_1_r. }
      rewrite E1. apply Qmult_le_compat_r; [exact HA | discriminate]. }
  destruct (round_bounds (a * Py.pow2 (- e))) as [Rlo Rhi].
  set (m := inject_Z (Py.round (a * Py.pow2 (- e)))) in *.
  assert (Hinv : (Py.pow2 (- e) * Py.pow2 e == 1)%Q).
  { rewrite <- pow2_add. replace (- e + e) with 0 by lia. reflexivity. }
  pose proof (pow2_pos e) as Pe.
  assert (Hhalf : (Py.pow2 (-1074) * (1 # 2) == Py.pow2 (-1075))%Q).
  { change (1 # 2)%Q with (Py.pow2 (-1)). rewrite <- pow2_add. reflexivity. }
  assert (Hexp : (a == a * Py.pow2 (- e) * Py.pow2 e)%Q)
    by (now rewrite <- Qmult_assoc, Hinv, Qmult_1_r).
  assert (B1 : ((m - (1 # 2)) * Py.pow2 e <= a)%Q).
  { rewrite Hexp. apply Qmult_le_compat_r; [lra | now apply Qlt_le_weak]. }
  assert (B2 : (a <= (m + (1 # 2)) * Py.pow2 e)%Q).
  { rewrite Hexp. apply Qmult_le_compat_r; [lra | now apply Qlt_le_weak]. }
  assert (Hm0 : (0 <= m)%Q).
  { subst m. assert (0 <= a * Py.pow2 (- e))%Q.
    { apply Qmult_le_0_compat; [rewrite Ha; exact Hq | apply Qlt_le_weak, pow2_pos]. }
    assert (H1 : (- (1 # 2) <= inject_Z (Py.round (a * Py.pow2 (- e))))%Q) by lra.
    unfold Qle, inject_Z in H1 |- *. cbn in H1 |- *. lia. }
  rewrite Ha in *.
  split; [apply Qmult_le_0_compat; [exact Hm0 | now apply Qlt_le_weak]|].
  assert (Hsplit : (q * (1 # 9007199254740992)
                    == q * (1 # 4503599627370496) * (1 # 2))%Q)
    by (now rewrite <- Qmult_assoc).
  rewrite Hsplit.
  split; nra.
Qed.

Lemma float_str (n : Z) : Py.float (Py.str n) = inr n.
Proof.
  unfold Py.float, Py.str.
  rewrite NilZero.isi.
  - now rewrite DecimalZ.of_to.
  - destruct n; cbn; try discriminate.
    intros H. injection H as H. now apply (DecimalPos.Unsigned.to_uint_nonnil p).
  - destruct n; cbn; try discriminate.
    intros H. injection H as H. now apply (DecimalPos.Unsigned.to_uint_nonnil p).
Qed.

Lemma str_not_blank (n : Z) : Py.str n <> " ".
Proof.
  intros H. pose proof (float_str n) as F. rewrite H in F. discriminate F.
Qed.

(** ** The trend charts *)

Lemma trend_push_cons (c : Q) (chart : list Q) (v : Q) :
  trend_push (c :: chart) v = inr (chart ++ [v])%list.
Proof. reflexivity. Qed.

Lemma push_all_drop (vs chart : list Q) :
  chart <> [] ->
  push_all chart vs = inr (drop (length vs) (chart ++ vs)%list).
Proof.
  revert chart. induction vs as [|v vs IH]; intros chart Hne.
  - cbn. now rewrite app_nil_r.
  - destruct chart as [|c chart]; [congruence|].
    cbn [push_all]. rewrite trend_push_cons.
    rewrite IH by (destruct chart; discriminate).
    cbn [length drop app]. now rewrite <- app_assoc.
Qed.

(** C5.  A trend chart filled to capacity [N] keeps exactly [N] values
    under any run of pushes (each push drops index 0 and appends at the
    end); once at least [N] values have been pushed it holds the [N] most
    recent ones, in the order in which they arrived.  [trend_push] is the
    pair of statements that both [update_co2_image_frame] and
    [update_aqi_image_frame] execute on their chart. *)
Theorem trend_buffer_fifo (N : nat) (chart vs : list Q) :
  length chart = N -> (0 < N)%nat ->
  exists chart',
    push_all chart vs = inr chart' /\
    length chart' = N /\
    chart' = drop (length vs) (chart ++ vs)%list /\
    ((N <= length vs)%nat -> chart' = drop (length vs - N) vs).
Proof.
  intros Hlen Hpos.
  assert (Hne : chart <> []) by (destruct chart; [cbn in Hlen; lia | discriminate]).
  exists (drop (length vs) (chart ++ vs)%list).
  split; [now apply push_all_drop|].
  split; [rewrite length_drop, length_app; lia|].
  split; [reflexivity|].
  intros Hge. rewrite drop_app_ge by lia. now rewrite Hlen.
Qed.

Lemma trend_buffer_fifo_witness :
  exists chart',
    push_all [128; 128; 128]%Q [(1 # 6); (2 # 6); (3 # 6); (4 # 6)]%Q = inr chart' /\
    length chart' = 3%nat /\
    chart' = [(2 # 6); (3 # 6); (4 # 6)]%Q.
Proof.
  destruct (trend_buffer_fifo 3 [128; 128; 128]%Q [(1 # 6); (2 # 6); (3 # 6); (4 # 6)]%Q
              eq_refl ltac:(lia)) as (chart' & Hrun & Hlen & _ & Hlast).
  exists chart'. split; [exact Hrun|]. split; [exact Hlen|].
  apply Hlast. cbn. lia.
Defined.

Section Properties.

Context (cfg : Config) (lib : Library) (env : Env).

(** ** The battery monitor *)

Lemma flashed_irrefl (text : string) (d : Z) (w : World) : ~ flashed text d w w.
Proof.
  intros (later & earlier & H). apply (f_equal (@length Event)) in H.
  rewrite length_app in H. cbn in H. rewrite length_app in H. lia.
Qed.

(** What a flash leaves behind: one entry in the log and twice its
    duration on the clock. *)
Lemma flash_status_run (text : string) (d : Z) (w : World) :
  exists w',
    flash_status text d w = Ok tt w' /\
    log w' = Flash text d :: log w /\
    monotonic w' = monotonic w + d + d /\
    TRANSLATE w' = TRANSLATE w.
Proof.
  destruct w as [m p pr tu tr t_0 sv rs ls c1 g1 c2 g2 px lg].
  eexists. split; [reflexivity|]. repeat split.
Qed.

Lemma battery_rounding (raw : Z) :
  0 <= raw <= 0xFFFF ->
  exists n : Z,
    (battery_volts raw == Py.fl (inject_Z n / 100) /\
     inject_Z n / 100 - (1 # 200) <= inject_Z raw * 6.6 / inject_Z 0xFFF0 /\
     inject_Z raw * 6.6 / inject_Z 0xFFF0 <= inject_Z n / 100 + (1 # 200))%Q.
Proof.
  intros Hraw. unfold battery_volts, Py.round2.
  set (x := Py.fl (Py.fl (inject_Z raw * Py.fl 6.6) / inject_Z 65520)).
  exists (Py.round (x * 100)). split; [reflexivity|].
  destruct (round_bounds (x * 100)) as [Rlo Rhi].
  set (n := Py.round (x * 100)) in *.
  assert (Hr : (0 <= inject_Z raw <= 65535)%Q).
  { split; [change 0%Q with (inject_Z 0) | change 65535%Q with (inject_Z 65535)];
      rewrite <- Zle_Qle; lia. }
  assert (Hc : Py.fl 6.6 = Qmake 7430939385161318 1125899906842624)
    by (vm_compute; reflexivity).
  subst x. rewrite Hc in *.
  set (p := (inject_Z raw * (7430939385161318 # 1125899906842624))%Q) in *.
  assert (Hp : (0 <= p)%Q) by (subst p; apply Qmult_le_0_compat; [apply Hr | discriminate]).
  destruct (fl_error p Hp) as (Y0 & Y1 & Y2).
  set (y := Py.fl p) in *.
  change (y / inject_Z 65520)%Q with (y * (1 # 65520))%Q in *.
  assert (Hy : (0 <= y * (1 # 65520))%Q) by (apply Qmult_le_0_compat; [exact Y0 | discriminate]).
  destruct (fl_error _ Hy) as (X0 & X1 & X2).
  set (x := Py.fl (y * (1 # 65520))) in *.
  assert (Hd' : (Py.pow2 (-1075) <= 1 # 1000000000000000000)%Q) by (vm_compute; discriminate).
  pose proof (pow2_pos (-1075)) as Hd0.
  set (dl := Py.pow2 (-1075)) in *. clearbody dl.
  subst p.
  assert (Hz : -547 < 1092 * n - 11 * raw < 547).
  { unfold Z.sub; split; rewrite Zlt_Qlt, inject_Z_plus, inject_Z_opp, !inject_Z_mult;
      change (inject_Z 1092) with 1092%Q; change (inject_Z 11) with 11%Q;
      change (inject_Z 547) with 547%Q; change (inject_Z (-547)) with (-547)%Q;
      lra. }
  change (inject_Z 65520) with 65520%Q.
  assert (Hz' : -546 <= 1092 * n - 11 * raw <= 546) by lia.
  destruct Hz' as [L U].
  unfold Z.sub in L, U. rewrite Zle_Qle, inject_Z_plus, inject_Z_opp, !inject_Z_mult in L, U.
  change (inject_Z 1092) with 1092%Q in *; change (inject_Z 11) with 11%Q in *.
  change (inject_Z 546) with 546%Q in *; change (inject_Z (-546)) with (-546)%Q in *.
  unfold Qdiv. change (/ 100)%Q with (1 # 100)%Q. change (/ 65520)%Q with (1 # 65520)%Q.
  split; lra.
Qed.

(** C9.  On a board with a battery monitor, for every reading [raw] of
    the 16-bit ADC: the battery voltage is [raw * 6.6 / 0xFFF0] rounded
    to two decimal places (the float nearest to [n / 100], for a whole
    number [n] of hundredths within half a hundredth of the exact
    quotient), and it is the float 6.6 for [raw = 0xFFF0].  The alert is
    raised exactly when the sensor data was invalid and the voltage is
    below 3.3: a tone (with a speaker), then LOW BATTERY and the measured
    voltage followed by " volts", each flashed for one second and
    blanked for one, which keeps the pass for four seconds at least.
    In every other case, with valid sensor data whatever the voltage,
    nothing happens. *)
Theorem battery_monitor_spec (raw : Z) (valid : bool) (w : World) :
  has_battery_mon cfg = true ->
  sensor_valid w = Some valid ->
  0 <= raw <= 0xFFFF ->
  (exists n : Z,
     battery_volts raw == Py.fl (inject_Z n / 100) /\
     inject_Z n / 100 - (1 # 200) <= inject_Z raw * 6.6 / inject_Z 0xFFF0 /\
     inject_Z raw * 6.6 / inject_Z 0xFFF0 <= inject_Z n / 100 + (1 # 200))%Q /\
  (battery_volts 0xFFF0 == Py.fl 6.6)%Q /\
  exists w',
    battery_monitor cfg lib raw w = Ok tt w' /\
    (flashed (interpret lib (TRANSLATE w) "LOW BATTERY") 1000 w w' <->
     valid = false /\ (battery_volts raw < Py.fl 3.3)%Q) /\
    (valid = false -> (battery_volts raw < Py.fl 3.3)%Q ->
     log w' = (Flash (Py.str_float2 (battery_volts raw) ++ " volts") 1000
               :: Flash (interpret lib (TRANSLATE w) "LOW BATTERY") 1000
               :: (if has_speaker cfg then [Tone 880 30] else []) ++ log w)%list /\
     monotonic w + 4000 <= monotonic w') /\
    (valid = true \/ ~ (battery_volts raw < Py.fl 3.3)%Q -> w' = w).
Proof.
  intros Hmon Hvalid Hraw.
  split.
  { exact (battery_rounding raw Hraw). }
  split; [vm_compute; reflexivity|].
  unfold battery_monitor. rewrite Hmon.
  unfold bind at 1. unfold gets at 1. rewrite Hvalid.
  assert (Hlt : Py.Qltb (battery_volts raw) (Py.fl 3.3) = true
                <-> (battery_volts raw < Py.fl 3.3)%Q).
  { unfold Py.Qltb. rewrite negb_true_iff, <- not_true_iff_false, Qle_bool_iff.
    split; [apply Qnot_le_lt | apply Qlt_not_le]. }
  generalize dependent (Py.fl 3.3). intros limit Hlt.
  generalize dependent (battery_volts raw). intros volts Hlt.
  destruct valid; cbn [negb andb].
  - exists w. split; [reflexivity|]. split; [|split; [discriminate | reflexivity]].
    split; [intros H; now apply flashed_irrefl in H | intros [H _]; discriminate].
  - destruct (Py.Qltb volts limit) eqn:Hv.
    + unfold play_tone.
      set (w0 := if has_speaker cfg then set_log (Tone 880 30 :: log w) w else w).
      assert (H0 : (if has_speaker cfg then emit (Tone 880 30) else ret tt) w = Ok tt w0)
        by (subst w0; destruct (has_speaker cfg); reflexivity).
      assert (L0 : log w0 = ((if has_speaker cfg then [Tone 880 30] else []) ++ log w)%list)
        by (subst w0; destruct (has_speaker cfg), w; reflexivity).
      assert (T0 : TRANSLATE w0 = TRANSLATE w /\ monotonic w0 = monotonic w)
        by (subst w0; destruct (has_speaker cfg), w; split; reflexivity).
      destruct T0 as [T0 M0]. clearbody w0.
      destruct (flash_status_run (interpret lib (TRANSLATE w0) "LOW BATTERY") 1000 w0)
        as (w1 & R1 & L1 & M1 & _).
      destruct (flash_status_run (Py.str_float2 volts ++ " volts") 1000 w1)
        as (w2 & R2 & L2 & M2 & _).
      exists w2. split.
      { unfold bind at 1. rewrite H0. unfold bind at 1. unfold gets at 1.
        unfold bind at 1. rewrite R1. exact R2. }
      unfold flashed. rewrite L2, L1, L0, M2, M1, M0, T0.
      split; [|split].
      * split; [intros _; split; [reflexivity | now apply Hlt]|]. intros _.
        eexists [_], _. reflexivity.
      * intros _ _. split; [reflexivity | lia].
      * intros [H|H]; [discriminate | exfalso; apply H; now apply Hlt].
    + exists w. split; [reflexivity|]. split; [|split; [|reflexivity]].
      * split; [intros H; now apply flashed_irrefl in H|].
        intros [_ H]. apply Hlt in H. discriminate.
      * intros _ H. apply Hlt in H. discriminate.
Qed.

(** ** The CO2 alarm *)

Lemma co2_alarm_run (reading : option Z) (w : World) :
  co2_sensor_exists cfg = true ->
  l_text (labels w co2_value) =
    match reading with Some v => Py.str v | None => " " end ->
  exists w',
    co2_alarm cfg lib w = Ok tt w' /\
    (flashed (interpret lib (TRANSLATE w) "ALARM") 750 w w' <->
     exists v, reading = Some v /\ fst (fst (CO2_ALARM cfg)) <= v) /\
    ((forall v, reading = Some v -> v < fst (fst (CO2_ALARM cfg))) -> w' = w).
Proof.
  intros Hex Htext.
  unfold co2_alarm. rewrite Hex.
  unfold bind at 1. unfold gets at 1. rewrite Htext.
  destruct reading as [v|].
  - assert (Hnb : String.eqb (Py.str v) " " = false)
      by (apply String.eqb_neq, str_not_blank).
    rewrite Hnb. cbn [negb].
    unfold bind at 1. rewrite float_str. cbn [lift]. unfold ret at 1.
    destruct (fst (fst (CO2_ALARM cfg)) <=? v) eqn:E.
    + apply Z.leb_le in E.
      unfold play_tone.
      destruct (has_neopixel cfg), (has_speaker cfg);
        (eexists; split; [reflexivity|]; split;
         [split; [intros _; exists v; split; [reflexivity | exact E] | intros _]
         | intros H; specialize (H v eq_refl); lia]).
      * now exists [Tone 880 15], [].
      * now exists [], [].
      * now exists [Tone 880 15], [].
      * now exists [], [].
    + apply Z.leb_gt in E.
      exists w. split; [reflexivity|]. split; [|reflexivity].
      split; [intros H; now apply flashed_irrefl in H|].
      intros (v' & Hv' & Hle). injection Hv' as <-. lia.
  - cbn. exists w. split; [reflexivity|]. split; [|reflexivity].
    split; [intros H; now apply flashed_irrefl in H|].
    intros (v' & Hv' & _). discriminate.
Qed.

(** C7.  The CO2 alarm is a function of the reading on display and of
    the configured threshold only: in a world [w] whose CO2 field shows
    [reading] (blank when no reading was taken yet), the ALARM flash
    happens exactly when a reading is there and is at least the
    threshold, and nothing at all happens when it is below.  No alarm
    state is kept: in any later world [w1] that shows [next], whatever
    happened in [w], the alarm fires exactly when [next] is at least
    the threshold. *)
Theorem co2_alarm_stateless (reading : option Z) (next : Z) (w : World) :
  co2_sensor_exists cfg = true ->
  l_text (labels w co2_value) =
    match reading with Some v => Py.str v | None => " " end ->
  exists w',
    co2_alarm cfg lib w = Ok tt w' /\
    (flashed (interpret lib (TRANSLATE w) "ALARM") 750 w w' <->
     exists v, reading = Some v /\ fst (fst (CO2_ALARM cfg)) <= v) /\
    ((forall v, reading = Some v -> v < fst (fst (CO2_ALARM cfg))) -> w' = w) /\
    forall w1 : World,
      l_text (labels w1 co2_value) = Py.str next ->
      exists w2,
        co2_alarm cfg lib w1 = Ok tt w2 /\
        (flashed (interpret lib (TRANSLATE w1) "ALARM") 750 w1 w2 <->
         fst (fst (CO2_ALARM cfg)) <= next) /\
        (next < fst (fst (CO2_ALARM cfg)) -> w2 = w1).
Proof.
  intros Hex Htext.
  destruct (co2_alarm_run reading w Hex Htext) as (w' & Hrun & Hiff & Hquiet).
  exists w'. repeat split; try assumption; try apply Hiff.
  intros w1 Hnext.
  destruct (co2_alarm_run (Some next) w1 Hex Hnext) as (w2 & Hrun2 & Hiff2 & Hquiet2).
  exists w2. split; [exact Hrun2|]. split.
  - rewrite Hiff2. split.
    + intros (v & Hv & Hle). now injection Hv as <-.
    + intros Hle. now exists next.
  - intros Hlt. apply Hquiet2. intros v Hv. now injection Hv as <-.
Qed.

(** ** The CO2 acquisition *)

Ltac run :=
  cbv beta iota delta
    [update_co2_image_frame update_aqi_image_frame bind gets modify ret raise lift
     data_available set_rect_fill set_rect_x set_rect_y set_label_text
     set_label_color flash_status sleep emit print].

Lemma co2_wait_nonblocking (fuel : nat) (wait_time t_0 : Z) (w : World) :
  co2_wait lib env fuel false wait_time t_0 w = Ok tt w.
Proof. destruct fuel; reflexivity. Qed.

Lemma draw_trend_ok (idx : list nat) (chart : list Q) (c : Color) :
  forall group : list Rect,
    (forall i, In i idx -> (i < length chart)%nat) ->
    (length chart <= length group)%nat ->
    exists group',
      draw_trend cfg idx chart c group = inr group' /\ length group' = length group.
Proof.
  induction idx as [|i idx IH]; intros group Hidx Hlen.
  - exists group. split; reflexivity.
  - assert (Hi : (i < length chart)%nat) by (apply Hidx; now left).
    destruct (lookup_lt_is_Some_2 chart i Hi) as [v Hv].
    destruct (lookup_lt_is_Some_2 group (length chart - i - 1) ltac:(lia)) as [r Hr].
    cbn [draw_trend]. rewrite Hv, Hr.
    destruct (IH (<[(length chart - i - 1)%nat :=
                    mkRect (Some c) (r_x r)
                      (HEIGHT cfg - Py.int (v * inject_Z (HEIGHT cfg)) + 1 - 3)]> group))
      as (group' & Hrun & Hlen').
    + intros j Hj. apply Hidx. now right.
    + now rewrite length_insert.
    + exists group'. split; [exact Hrun|]. now rewrite Hlen', length_insert.
Qed.

Lemma draw_trend_all (chart : list Q) (c : Color) (group : list Rect) :
  (length chart <= length group)%nat ->
  exists group',
    draw_trend cfg (seq 0 (length chart)) chart c group = inr group' /\
    length group' = length group.
Proof.
  intros Hlen. apply draw_trend_ok; [|exact Hlen].
  intros i Hi. apply in_seq in Hi. lia.
Qed.

Lemma co2_wait_running (wait_time : Z) :
  (forall k, scd_data_available env k = false) ->
  0 < wait_time ->
  forall (n : nat) (w : World) (t_0 : Z),
    t_0 <= monotonic w ->
    exists w',
      co2_wait lib env n true wait_time t_0 w = Running w' /\
      monotonic w' = monotonic w + 1000 * Z.of_nat n.
Proof.
  intros Hnever Hpos n. induction n as [|n IH]; intros w t_0 Ht.
  - cbn [co2_wait]. run. rewrite Hnever. cbn [negb set_polls monotonic].
    replace (t_0 - monotonic w <? wait_time) with true by (symmetry; apply Z.ltb_lt; lia).
    eexists. split; [reflexivity|]. cbn. lia.
  - cbn [co2_wait]. run. rewrite Hnever. cbn [negb set_polls monotonic].
    replace (t_0 - monotonic w <? wait_time) with true by (symmetry; apply Z.ltb_lt; lia).
    match goal with
    | |- exists w', co2_wait _ _ _ _ _ _ ?w1 = _ /\ _ =>
        destruct (IH w1 t_0 ltac:(cbn; lia)) as (w' & Hrun & Hclock)
    end.
    exists w'. split; [exact Hrun|]. rewrite Hclock. cbn. lia.
Qed.

Lemma update_co2_blocking_running (fuel : nat) (wait_time : Z) (w : World) :
  co2_sensor_exists cfg = true ->
  (forall k, scd_data_available env k = false) ->
  0 < wait_time ->
  exists w',
    update_co2_image_frame cfg lib env fuel true wait_time w = Running w' /\
    monotonic w' = monotonic w + 1000 * Z.of_nat fuel.
Proof.
  intros Hex Hnever Hpos.
  unfold update_co2_image_frame. rewrite Hex. run.
  destruct (co2_wait_running wait_time Hnever Hpos fuel w (monotonic w) ltac:(lia))
    as (w' & Hrun & Hclock).
  rewrite Hrun. exists w'. split; [reflexivity | exact Hclock].
Qed.

(** C2, as the code has it.  The blocking wait of
    [update_co2_image_frame] has no time bound: with the sensor present
    and a data-ready flag that stays false, the call is still inside its
    wait loop after any number [fuel] of passes, one second of monotonic
    time per pass, however small the positive [wait_time]; the start-up
    code, which makes this call with the default of 3 s, never gets past
    it. *)
Theorem co2_wait_never_times_out (fuel : nat) (wait_time : Z) (w : World) :
  co2_sensor_exists cfg = true ->
  (forall k, scd_data_available env k = false) ->
  0 < wait_time ->
  (exists w',
     update_co2_image_frame cfg lib env fuel true wait_time w = Running w' /\
     monotonic w' = monotonic w + 1000 * Z.of_nat fuel) /\
  (exists w', setup cfg lib env fuel w = Running w').
Proof.
  intros Hex Hnever Hpos. split.
  - now apply update_co2_blocking_running.
  - destruct (update_co2_blocking_running fuel 3000 w Hex Hnever ltac:(lia))
      as (w' & Hrun & _).
    exists w'. unfold setup. rewrite Hex.
    unfold bind at 1. unfold bind at 1. now rewrite Hrun.
Qed.

(** C1, as the code has it.  A non-blocking call that finds the CO2
    sensor present and [data_available] false returns [True] (the
    initial value of the flag, which only the classifier's verdict on
    a reading can replace) and changes nothing but the count of polls:
    every widget and both trend charts are as before. *)
Theorem update_co2_no_data (fuel : nat) (wait_time : Z) (w : World) :
  co2_sensor_exists cfg = true ->
  scd_data_available env (polls w) = false ->
  update_co2_image_frame cfg lib env fuel false wait_time w
    = Ok true (set_polls (S (polls w)) w) /\
  labels (set_polls (S (polls w)) w) = labels w /\
  rects (set_polls (S (polls w)) w) = rects w /\
  co2_trend_chart (set_polls (S (polls w)) w) = co2_trend_chart w /\
  co2_trend_group (set_polls (S (polls w)) w) = co2_trend_group w.
Proof.
  intros Hex Hno.
  split; [|repeat split].
  unfold update_co2_image_frame. rewrite Hex. run.
  rewrite co2_wait_nonblocking. rewrite Hno. reflexivity.
Qed.

Ltac proj :=
  cbn [monotonic polls pm_reads TEMP_UNIT TRANSLATE t0 sensor_valid rects labels
       co2_trend_chart co2_trend_group aqi_trend_chart aqi_trend_group pixels log
       set_monotonic set_polls set_pm_reads set_TEMP_UNIT set_TRANSLATE set_t0
       set_sensor_valid set_rects set_labels set_co2_trend_chart
       set_co2_trend_group set_aqi_trend_chart set_aqi_trend_group set_pixels
       set_log].

Lemma co2_poointer_shadow_unbound :
  global_rect "co2_poointer_shadow" = inl (Py.NameError "co2_poointer_shadow").
Proof. reflexivity. Qed.

Lemma aqi_pointer_shadow_bound :
  global_rect "aqi_pointer_shadow" = inr aqi_pointer_shadow.
Proof. reflexivity. Qed.

Lemma normalised_in_range (v scale : Z) :
  0 < scale -> 0 <= v <= scale ->
  (inject_Z v / inject_Z scale == clamp (inject_Z v / inject_Z scale) 0 1)%Q.
Proof.
  intros Hs Hv. unfold clamp.
  assert (H0 : (0 <= inject_Z v / inject_Z scale)%Q).
  { apply Qle_shift_div_l; [now rewrite <- (Zlt_Qlt 0) | rewrite Qmult_0_l].
    now rewrite <- (Zle_Qle 0). }
  assert (H1 : (inject_Z v / inject_Z scale <= 1)%Q).
  { apply Qle_shift_div_r; [now rewrite <- (Zlt_Qlt 0) | rewrite Qmult_1_l].
    now rewrite <- Zle_Qle. }
  rewrite (Q.min_r _ _ H1). now rewrite (Q.max_r _ _ H0).
Qed.

Lemma co2_overrange_frame (fuel : nat) (wait_time : Z) (w : World)
    (valid : bool) (ppm : Z) (col : Color) (label : string) :
  co2_sensor_exists cfg = true ->
  scd_data_available env (polls w) = true ->
  co2_ppm_to_quality lib (Py.round (scd_CO2 env (S (polls w)))) = (valid, ppm, col, label) ->
  6000 <= ppm ->
  exists w',
    update_co2_image_frame cfg lib env fuel false wait_time w
      = Raised (Py.NameError "co2_poointer_shadow") w' /\
    co2_trend_chart w' = co2_trend_chart w.
Proof.
  intros Hex Havail Hclass Hover.
  unfold update_co2_image_frame. rewrite Hex. run.
  rewrite co2_wait_nonblocking, Havail. proj. rewrite Hclass.
  replace (ppm <? 6000) with false by (symmetry; apply Z.ltb_ge; lia).
  rewrite co2_poointer_shadow_unbound.
  eexists. split; reflexivity.
Qed.

(** C8, as the code has it.  When the classified CO2 value reaches the
    scale maximum, the update does not complete: the overrange branch
    names [co2_poointer_shadow], which is bound nowhere, so the call
    ends in a [NameError] before the pointer is pinned, before the
    OVERRANGE message is flashed and before the value is put on
    display. *)
Theorem co2_overrange_faults (fuel : nat) (wait_time : Z) (w : World)
    (valid : bool) (ppm : Z) (col : Color) (label : string) :
  co2_sensor_exists cfg = true ->
  scd_data_available env (polls w) = true ->
  co2_ppm_to_quality lib (Py.round (scd_CO2 env (S (polls w)))) = (valid, ppm, col, label) ->
  6000 <= ppm ->
  exists w',
    update_co2_image_frame cfg lib env fuel false wait_time w
      = Raised (Py.NameError "co2_poointer_shadow") w' /\
    r_y (rects w' co2_pointer) = r_y (rects w co2_pointer) /\
    r_y (rects w' co2_pointer_shadow) = r_y (rects w co2_pointer_shadow) /\
    log w' = log w /\
    l_text (labels w' co2_value) = l_text (labels w co2_value).
Proof.
  intros Hex Havail Hclass Hover.
  unfold update_co2_image_frame. rewrite Hex. run.
  rewrite co2_wait_nonblocking, Havail. proj. rewrite Hclass.
  replace (ppm <? 6000) with false by (symmetry; apply Z.ltb_ge; lia).
  rewrite co2_poointer_shadow_unbound.
  eexists. split; [reflexivity|]. repeat split.
Qed.

(** C6, as the code has it.  Of a classified CO2 value [ppm] the trend
    chart receives [ppm / 6000] when [ppm] is below the scale maximum
    (which is [clamp(ppm / 6000, 0, 1)] for a non-negative [ppm]); at
    or above the maximum the update ends in the [NameError] of the
    overrange branch and nothing is pushed. *)
Theorem co2_push_normalised (fuel : nat) (wait_time : Z) (w : World)
    (valid : bool) (ppm : Z) (col : Color) (label : string) :
  co2_sensor_exists cfg = true ->
  scd_data_available env (polls w) = true ->
  co2_ppm_to_quality lib (Py.round (scd_CO2 env (S (polls w)))) = (valid, ppm, col, label) ->
  co2_trend_chart w <> [] ->
  (length (co2_trend_chart w) <= length (co2_trend_group w))%nat ->
  (ppm < 6000 ->
   exists w',
     update_co2_image_frame cfg lib env fuel false wait_time w = Ok valid w' /\
     co2_trend_chart w' = (tail (co2_trend_chart w) ++ [inject_Z ppm / 6000]%Q)%list /\
     (0 <= ppm ->
      (inject_Z ppm / 6000 == clamp (inject_Z ppm / 6000) 0 1)%Q)) /\
  (6000 <= ppm ->
   exists e w',
     update_co2_image_frame cfg lib env fuel false wait_time w = Raised e w' /\
     co2_trend_chart w' = co2_trend_chart w).
Proof.
  intros Hex Havail Hclass Hne Hlen. split.
  - intros Hin.
    unfold update_co2_image_frame. rewrite Hex. run.
    rewrite co2_wait_nonblocking, Havail. proj. rewrite Hclass.
    replace (ppm <? 6000) with true by (symmetry; apply Z.ltb_lt; lia).
    proj.
    destruct (draw_trend_all (co2_trend_chart w) GRAY (co2_trend_group w) Hlen)
      as (group' & Hdraw & _).
    rewrite Hdraw.
    destruct (co2_trend_chart w) as [|c0 chart] eqn:Hchart; [congruence|].
    rewrite trend_push_cons.
    eexists. split; [reflexivity|]. split; [reflexivity|].
    intros Hpos. apply (normalised_in_range ppm 6000); lia.
  - intros Hover.
    destruct (co2_overrange_frame fuel wait_time w valid ppm col label
                Hex Havail Hclass Hover) as (w' & Hrun & Hchart).
    now exists (Py.NameError "co2_poointer_shadow"), w'.
Qed.

(** ** The particulate sampling window *)

Lemma untouched_refl (w : World) : untouched w w.
Proof. repeat split. Qed.

Lemma untouched_trans (w1 w2 w3 : World) :
  untouched w1 w2 -> untouched w2 w3 -> untouched w1 w3.
Proof.
  unfold untouched. intros H1 H2.
  repeat match goal with H : _ /\ _ |- _ => destruct H end.
  repeat split; congruence.
Qed.

Lemma sample_loop_closed (fuel : nat) (time_start : Z) (acc : list Z) (w : World) :
  2300 < monotonic w - time_start ->
  sample_loop env fuel time_start acc w = Ok acc w.
Proof.
  intros H.
  destruct fuel; cbn [sample_loop];
    replace (monotonic w - time_start <=? 2300) with false
      by (symmetry; apply Z.leb_gt; lia); reflexivity.
Qed.

Lemma sample_loop_spec (fuel : nat) :
  (forall k, (0 < fst (pm25 env k))%N) ->
  forall (time_start : Z) (acc : list Z) (w : World),
    2301 - (monotonic w - time_start) <= Z.of_nat fuel ->
    exists n w',
      sample_loop env fuel time_start acc w
        = Ok (acc ++ successes (reads_from env (pm_reads w) n))%list w' /\
      pm_reads w' = (pm_reads w + n)%nat /\
      monotonic w' = monotonic w + elapsed (reads_from env (pm_reads w) n) /\
      2300 < monotonic w' - time_start /\
      (forall j, (j < n)%nat ->
         monotonic w + elapsed (reads_from env (pm_reads w) j) - time_start <= 2300) /\
      untouched w w'.
Proof.
  intros Hlat. induction fuel as [|fuel IH]; intros time_start acc w Hfuel.
  - exists 0%nat, w. rewrite sample_loop_closed by lia.
    cbn. rewrite app_nil_r. repeat split; try lia.
  - destruct (Z.leb_spec (monotonic w - time_start) 2300) as [Hopen|Hclosed].
    2:{ exists 0%nat, w. rewrite sample_loop_closed by lia.
        cbn. rewrite app_nil_r. repeat split; try lia. }
    cbn [sample_loop].
    replace (monotonic w - time_start <=? 2300) with true
      by (symmetry; apply Z.leb_le; lia).
    pose proof (Hlat (pm_reads w)) as Hpos.
    unfold bind at 1. unfold pm25_read at 1.
    destruct (pm25 env (pm_reads w)) as [lat [v|]] eqn:Hev; cbn [fst snd] in *.
    + unfold bind at 1. unfold sleep at 1, modify at 1.
      match goal with
      | |- exists n w', sample_loop _ _ _ ?acc1 ?w1 = _ /\ _ =>
          destruct (IH time_start acc1 w1 ltac:(cbn; lia))
            as (n & w' & Hrun & Hreads & Hclock & Hend & Hwin & Hsame)
      end.
      exists (S n), w'. rewrite Hrun. clear Hrun.
      cbn [pm_reads monotonic set_monotonic set_pm_reads] in Hreads, Hclock, Hwin |- *.
      assert (Hrf : forall m, reads_from env (pm_reads w) (S m)
                      = (lat, Some v) :: reads_from env (S (pm_reads w)) m).
      { intros m. unfold reads_from. cbn [seq map]. now rewrite Hev. }
      rewrite Hrf. cbn [successes elapsed].
      split; [unfold Py.append; now rewrite <- app_assoc|].
      split; [lia|]. split; [lia|]. split; [exact Hend|]. split.
      * intros [|j] Hj; [cbn; lia|]. rewrite Hrf. cbn [elapsed].
        specialize (Hwin j ltac:(lia)). lia.
      * eapply untouched_trans; [|exact Hsame]. repeat split.
    + unfold bind at 1. unfold print at 1, emit at 1, modify at 1.
      match goal with
      | |- exists n w', sample_loop _ _ _ ?acc1 ?w1 = _ /\ _ =>
          destruct (IH time_start acc1 w1 ltac:(cbn; lia))
            as (n & w' & Hrun & Hreads & Hclock & Hend & Hwin & Hsame)
      end.
      exists (S n), w'. rewrite Hrun. clear Hrun.
      cbn [pm_reads monotonic set_monotonic set_pm_reads set_log] in Hreads, Hclock, Hwin |- *.
      assert (Hrf : forall m, reads_from env (pm_reads w) (S m)
                      = (lat, None) :: reads_from env (S (pm_reads w)) m).
      { intros m. unfold reads_from. cbn [seq map]. now rewrite Hev. }
      rewrite Hrf. cbn [successes elapsed].
      split; [reflexivity|].
      split; [lia|]. split; [lia|]. split; [exact Hend|]. split.
      * intros [|j] Hj; [cbn; lia|]. rewrite Hrf. cbn [elapsed].
        specialize (Hwin j ltac:(lia)). lia.
      * eapply untouched_trans; [|exact Hsame]. repeat split.
Qed.

Lemma sumZ_fold_left (l : list Z) (a : Z) : fold_left Z.add l a = a + sumZ l.
Proof.
  revert a. induction l as [|x l IH]; intros a; cbn [fold_left sumZ fold_right].
  - lia.
  - rewrite IH. unfold sumZ. lia.
Qed.

Lemma successes_all_failed (k n : nat) :
  (forall j, snd (pm25 env j) = None) -> successes (reads_from env k n) = [].
Proof.
  intros Hfail. revert k. induction n as [|n IH]; intros k; [reflexivity|].
  unfold reads_from in *. cbn [seq map].
  specialize (Hfail k). destruct (pm25 env k) as [lat [v|]]; cbn in Hfail; [discriminate|].
  cbn [successes]. apply IH.
Qed.

Lemma sample_aq_sensor_ok (fuel : nat) (w w1 : World) (samples : list Z) :
  sample_loop env fuel (monotonic w) [] w = Ok samples w1 ->
  samples <> [] ->
  sample_aq_sensor env fuel w
    = Ok (inject_Z (sumZ samples) / inject_Z (Z.of_nat (length samples)))%Q w1.
Proof.
  intros Hrun Hne. unfold sample_aq_sensor. run. rewrite Hrun.
  unfold Py.truediv.
  destruct (Qeq_bool (inject_Z (Z.of_nat (length samples))) 0) eqn:Hz.
  - apply Qeq_bool_eq in Hz. unfold Qeq in Hz. cbn in Hz.
    destruct samples; [congruence | cbn in Hz; lia].
  - rewrite sumZ_fold_left. reflexivity.
Qed.

Lemma sample_aq_sensor_empty (fuel : nat) (w w1 : World) :
  sample_loop env fuel (monotonic w) [] w = Ok [] w1 ->
  sample_aq_sensor env fuel w = Raised Py.ZeroDivisionError w1.
Proof.
  intros Hrun. unfold sample_aq_sensor. run. rewrite Hrun. reflexivity.
Qed.

(** C3, as the code has it.  When every read of the window fails, the
    window still runs to its end (more than 2.3 s) and the averaging
    then divides by [len(aq_samples)] = 0: the call ends in Python's
    own [ZeroDivisionError], raised by the division itself. *)
Theorem sample_aq_sensor_zero_samples (fuel : nat) (w : World) :
  (forall k, snd (pm25 env k) = None) ->
  (forall k, (0 < fst (pm25 env k))%N) ->
  (2301 <= fuel)%nat ->
  exists w',
    sample_aq_sensor env fuel w = Raised Py.ZeroDivisionError w' /\
    2300 < monotonic w' - monotonic w /\
    untouched w w'.
Proof.
  intros Hfail Hlat Hfuel.
  destruct (sample_loop_spec fuel Hlat (monotonic w) [] w ltac:(lia))
    as (n & w' & Hrun & _ & _ & Hend & _ & Hsame).
  rewrite (successes_all_failed _ _ Hfail) in Hrun. cbn [app] in Hrun.
  exists w'. split; [now apply sample_aq_sensor_empty|]. split; assumption.
Qed.

(** C4.  [sample_aq_sensor] keeps reading while no more than 2.3 s of
    monotonic time have passed since it started, and stops at the
    first loop test after that.  Of the [n] reads that it makes, a
    successful one appends its value and is followed by a 1-s sleep, a
    failed one appends nothing and is followed at once by the next
    loop test ([successes], [elapsed]).  The window always ends, and if
    it collected at least one value the result is the arithmetic mean
    of the collected values. *)
Theorem sample_aq_sensor_mean (fuel : nat) (w : World) :
  (forall k, (0 < fst (pm25 env k))%N) ->
  (2301 <= fuel)%nat ->
  exists n w',
    sample_loop env fuel (monotonic w) [] w
      = Ok (successes (reads_from env (pm_reads w) n)) w' /\
    pm_reads w' = (pm_reads w + n)%nat /\
    monotonic w' = monotonic w + elapsed (reads_from env (pm_reads w) n) /\
    2300 < monotonic w' - monotonic w /\
    (forall j, (j < n)%nat -> elapsed (reads_from env (pm_reads w) j) <= 2300) /\
    untouched w w' /\
    (successes (reads_from env (pm_reads w) n) <> [] ->
     exists mean,
       sample_aq_sensor env fuel w = Ok mean w' /\
       (mean * inject_Z (Z.of_nat (length (successes (reads_from env (pm_reads w) n))))
        == inject_Z (sumZ (successes (reads_from env (pm_reads w) n))))%Q).
Proof.
  intros Hlat Hfuel.
  destruct (sample_loop_spec fuel Hlat (monotonic w) [] w ltac:(lia))
    as (n & w' & Hrun & Hreads & Hclock & Hend & Hwin & Hsame).
  cbn [app] in Hrun.
  exists n, w'.
  split; [exact Hrun|]. split; [exact Hreads|]. split; [exact Hclock|].
  split; [exact Hend|]. split; [|split; [exact Hsame|]].
  - intros j Hj. specialize (Hwin j Hj). lia.
  - intros Hne.
    set (samples := successes (reads_from env (pm_reads w) n)) in *.
    exists (inject_Z (sumZ samples) / inject_Z (Z.of_nat (length samples)))%Q.
    split; [apply sample_aq_sensor_ok; assumption|].
    rewrite Qmult_comm. apply Qmult_div_r.
    unfold Qeq. cbn. destruct samples; [congruence | cbn; lia].
Qed.

(** ** The particulate update *)

Lemma bind_returns {A B : Type} (P : B -> Prop) (m : M A) (k : A -> M B) :
  (forall a, returns_only P (k a)) -> returns_only P (bind m k).
Proof.
  intros Hk w b w'. unfold bind.
  destruct (m w) as [a w1|e w1|w1]; try discriminate. apply Hk.
Qed.

Lemma ret_returns {A : Type} (P : A -> Prop) (a : A) : P a -> returns_only P (ret a).
Proof. intros Ha w b w' [= <- _]. exact Ha. Qed.

Lemma update_aqi_never_false (fuel : nat) (blocking : bool) (wait_time : Z) :
  returns_only (fun v => v = true)
    (update_aqi_image_frame cfg lib env fuel blocking wait_time).
Proof.
  unfold update_aqi_image_frame.
  destruct (aqi_sensor_exists cfg); [|now apply ret_returns].
  apply bind_returns. intros sensor_pm25.
  destruct (concentration_to_aqi lib sensor_pm25) as [[[flag aqi] col] label].
  repeat (apply bind_returns; intros ?).
  now apply ret_returns.
Qed.

(** *** Reasoning rules for the drawing code *)

Lemma same_data_refl (w : World) : same_data w w.
Proof. repeat split. Qed.

Lemma same_data_trans (w1 w2 w3 : World) :
  same_data w1 w2 -> same_data w2 w3 -> same_data w1 w3.
Proof.
  unfold same_data. intros H1 H2.
  repeat match goal with H : _ /\ _ |- _ => destruct H end.
  repeat split; congruence.
Qed.

Lemma display_only_bind {A B : Type} (m : M A) (k : A -> M B) :
  display_only m -> (forall a, display_only (k a)) -> display_only (bind m k).
Proof.
  intros Hm Hk w. destruct (Hm w) as (a & w1 & Hrun & Hsame).
  destruct (Hk a w1) as (b & w2 & Hrun2 & Hsame2).
  exists b, w2. unfold bind. rewrite Hrun. split; [exact Hrun2|].
  eapply same_data_trans; eassumption.
Qed.

Lemma display_only_ret {A : Type} (a : A) : display_only (ret a).
Proof. intros w. exists a, w. split; [reflexivity | apply same_data_refl]. Qed.

Lemma display_only_gets {A : Type} (f : World -> A) : display_only (gets f).
Proof. intros w. exists (f w), w. split; [reflexivity | apply same_data_refl]. Qed.

Lemma display_only_set_label_text (i : LabelId) (t : string) :
  display_only (set_label_text i t).
Proof. intros w. eexists _, _. split; [reflexivity | repeat split]. Qed.

Lemma display_only_set_label_color (i : LabelId) (c : option Color) :
  display_only (set_label_color i c).
Proof. intros w. eexists _, _. split; [reflexivity | repeat split]. Qed.

Lemma display_only_set_rect_fill (i : RectId) (c : option Color) :
  display_only (set_rect_fill i c).
Proof. intros w. eexists _, _. split; [reflexivity | repeat split]. Qed.

Lemma display_only_set_rect_y (i : RectId) (v : Z) : display_only (set_rect_y i v).
Proof. intros w. eexists _, _. split; [reflexivity | repeat split]. Qed.

Lemma display_only_sleep (d : Z) : display_only (sleep d).
Proof. intros w. eexists _, _. split; [reflexivity | repeat split]. Qed.

Lemma display_only_emit (e : Event) : display_only (emit e).
Proof. intros w. eexists _, _. split; [reflexivity | repeat split]. Qed.

Lemma display_only_lift_rect (name : string) (i : RectId) :
  global_rect name = inr i -> display_only (lift (global_rect name)).
Proof. intros H. rewrite H. apply display_only_ret. Qed.

Create HintDb drawing.
#[local] Hint Resolve display_only_ret display_only_gets display_only_set_label_text
  display_only_set_label_color display_only_set_rect_fill display_only_set_rect_y
  display_only_sleep display_only_emit : drawing.

Ltac drawing :=
  repeat (apply display_only_bind; [|intros ?]); auto with drawing.

Lemma display_only_flash_status (text : string) (d : Z) :
  display_only (flash_status text d).
Proof. unfold flash_status. drawing. Qed.

#[local] Hint Resolve display_only_flash_status : drawing.

Lemma wp_run {A B : Type} (m : M A) (k : A -> M B) (Q : B -> World -> Prop)
    (w w1 : World) (a : A) :
  m w = Ok a w1 -> wp (k a) Q w1 -> wp (bind m k) Q w.
Proof.
  intros Hm (b & w2 & Hk & HQ). exists b, w2. unfold bind. rewrite Hm. now split.
Qed.

Lemma wp_display {A B : Type} (m : M A) (k : A -> M B) (Q : B -> World -> Prop)
    (w0 w : World) :
  same_data w0 w ->
  display_only m ->
  (forall a w', same_data w0 w' -> wp (k a) Q w') ->
  wp (bind m k) Q w.
Proof.
  intros H0 Hm Hk. destruct (Hm w) as (a & w1 & Hrun & Hsame).
  apply (wp_run _ _ _ _ _ _ Hrun). apply Hk.
  eapply same_data_trans; eassumption.
Qed.

(** *** The particulate update *)

(** The part of [update_aqi_image_frame] that follows the classifier:
    whatever the AQI, it draws, then pushes [aqi / 500]. *)
Lemma update_aqi_run (fuel : nat) (blocking : bool) (wait_time : Z) (w w1 : World)
    (samples : list Z) (flag : bool) (aqi : Z) (col : Color) (label : string) :
  aqi_sensor_exists cfg = true ->
  sample_loop env fuel (monotonic w) [] w = Ok samples w1 ->
  samples <> [] ->
  concentration_to_aqi lib
    (inject_Z (sumZ samples) / inject_Z (Z.of_nat (length samples)))%Q
    = (flag, aqi, col, label) ->
  aqi_trend_chart w1 <> [] ->
  (length (aqi_trend_chart w1) <= length (aqi_trend_group w1))%nat ->
  exists w',
    update_aqi_image_frame cfg lib env fuel blocking wait_time w = Ok true w' /\
    aqi_trend_chart w' = (tail (aqi_trend_chart w1) ++ [inject_Z aqi / 500]%Q)%list /\
    sensor_valid w' = sensor_valid w1.
Proof.
  intros Hex Hrun Hne Hclass Hchart Hlen.
  enough (Hwp : wp (update_aqi_image_frame cfg lib env fuel blocking wait_time)
                  (fun v w' =>
                     v = true /\
                     aqi_trend_chart w'
                       = (tail (aqi_trend_chart w1) ++ [inject_Z aqi / 500]%Q)%list /\
                     sensor_valid w' = sensor_valid w1) w).
  { destruct Hwp as (v & w' & Hw & -> & Hpush & Hsv). now exists w'. }
  unfold update_aqi_image_frame. rewrite Hex.
  apply (wp_run _ _ _ _ _ _ (sample_aq_sensor_ok fuel w w1 _ Hrun Hne)).
  rewrite Hclass.
  apply (wp_display _ _ _ w1 w1 (same_data_refl w1)); [drawing|]. intros _ w2 H2.
  apply (wp_display _ _ _ w1 w2 H2).
  { destruct (aqi <? 500); drawing.
    now apply (display_only_lift_rect "aqi_pointer_shadow" aqi_pointer_shadow). }
  intros _ w3 H3.
  apply (wp_display _ _ _ w1 w3 H3); [drawing|]. intros tr w4 H4.
  apply (wp_display _ _ _ w1 w4 H4); [drawing|]. intros _ w5 H5.
  apply (wp_display _ _ _ w1 w5 H5); [drawing|]. intros _ w6 H6.
  destruct H6 as (_ & _ & _ & _ & _ & Hsv & _ & _ & Hc & Hg).
  destruct (draw_trend_all (aqi_trend_chart w1) PURPLE (aqi_trend_group w1) Hlen)
    as (group' & Hdraw & _).
  unfold wp, bind, gets, modify, ret. rewrite Hc, Hg, Hdraw. cbn [lift]. unfold ret.
  destruct (aqi_trend_chart w1) as [|c0 chart]; [congruence|].
  rewrite trend_push_cons. cbn [lift]. unfold ret.
  eexists _, _. split; [reflexivity|]. repeat split. exact Hsv.
Qed.

(** The paths of [update_aqi_image_frame] that return.  It never
    returns [False]: without the sensor it returns [True] at once and
    touches nothing; with the sensor, and trend chart and bars as
    start-up builds them, it returns [True] whenever the sampling window
    collected at least one value, in range or overrange; and whatever
    it returns, on any path, is [True].  It leaves [sensor_valid]
    alone. *)
Theorem update_aqi_returns_true (fuel : nat) (blocking : bool) (wait_time : Z)
    (w : World) :
  (aqi_sensor_exists cfg = false ->
   update_aqi_image_frame cfg lib env fuel blocking wait_time w = Ok true w) /\
  (aqi_sensor_exists cfg = true ->
   (forall k, (0 < fst (pm25 env k))%N) ->
   (2301 <= fuel)%nat ->
   aqi_trend_chart w <> [] ->
   (length (aqi_trend_chart w) <= length (aqi_trend_group w))%nat ->
   window_samples env fuel w <> [] ->
   exists w',
     update_aqi_image_frame cfg lib env fuel blocking wait_time w = Ok true w' /\
     sensor_valid w' = sensor_valid w) /\
  (forall v w',
     update_aqi_image_frame cfg lib env fuel blocking wait_time w = Ok v w' ->
     v = true).
Proof.
  split; [|split].
  - intros Hex. unfold update_aqi_image_frame. now rewrite Hex.
  - intros Hex Hlat Hfuel Hne Hlen Hwin.
    destruct (sample_loop_spec fuel Hlat (monotonic w) [] w ltac:(lia))
      as (n & w1 & Hrun & _ & _ & _ & _ & Hsame).
    cbn [app] in Hrun.
    unfold window_samples in Hwin. rewrite Hrun in Hwin.
    destruct Hsame as (_ & _ & _ & _ & Hsv & _ & _ & _ & _ & Hchart & Hgroup & _).
    rewrite <- Hchart in Hne. rewrite <- Hchart, <- Hgroup in Hlen.
    destruct (concentration_to_aqi lib
                (inject_Z (sumZ (successes (reads_from env (pm_reads w) n)))
                 / inject_Z (Z.of_nat (length (successes (reads_from env (pm_reads w) n)))))%Q)
      as [[[flag aqi] col] label] eqn:Hclass.
    destruct (update_aqi_run fuel blocking wait_time w w1 _ flag aqi col label
                Hex Hrun Hwin Hclass Hne Hlen) as (w' & Hw & _ & Hsv').
    exists w'. split; [exact Hw | congruence].
  - intros v w'. apply update_aqi_never_false.
Qed.

(** C10, as the code has it.  One path of [update_aqi_image_frame] does
    not return [True], nor anything else: with the sensor present and
    every read of the window failing, the [ZeroDivisionError] of
    [sample_aq_sensor] propagates through it after the 2.3 s of the
    window, before anything is drawn.  The function has no handler for
    it, so the health flag that its docstring promises is never
    returned on that path. *)
Theorem update_aqi_zero_samples_faults (fuel : nat) (blocking : bool) (wait_time : Z)
    (w : World) :
  aqi_sensor_exists cfg = true ->
  (forall k, snd (pm25 env k) = None) ->
  (forall k, (0 < fst (pm25 env k))%N) ->
  (2301 <= fuel)%nat ->
  exists w',
    update_aqi_image_frame cfg lib env fuel blocking wait_time w
      = Raised Py.ZeroDivisionError w' /\
    2300 < monotonic w' - monotonic w /\
    untouched w w' /\
    forall v w'',
      update_aqi_image_frame cfg lib env fuel blocking wait_time w <> Ok v w''.
Proof.
  intros Hex Hfail Hlat Hfuel.
  destruct (sample_loop_spec fuel Hlat (monotonic w) [] w ltac:(lia))
    as (n & w' & Hrun & _ & _ & Hend & _ & Hsame).
  rewrite (successes_all_failed _ _ Hfail) in Hrun. cbn [app] in Hrun.
  assert (H : update_aqi_image_frame cfg lib env fuel blocking wait_time w
              = Raised Py.ZeroDivisionError w').
  { unfold update_aqi_image_frame. rewrite Hex. unfold bind at 1.
    now rewrite (sample_aq_sensor_empty fuel w w' Hrun). }
  exists w'. split; [exact H|]. split; [exact Hend|]. split; [exact Hsame|].
  intros v w'' H'. rewrite H in H'. discriminate H'.
Qed.

End Properties.

(** Readings at which the exact quotient lies midway between two
    hundredths (7098 gives 0.715) and binary64 settles the tie, and the
    text that is flashed for them. *)
Example battery_volts_shown :
  Py.str_float2 (battery_volts 7098) = "0.71" /\
  Py.str_float2 (battery_volts 4914) = "0.49" /\
  Py.str_float2 (battery_volts 29783) = "3.0" /\
  Py.str_float2 (battery_volts 0xFFF0) = "6.6" /\
  Py.str_float2 (battery_volts 0) = "0.0" /\
  Py.str_float2 (battery_volts 0xFFFF) = "6.6".
Proof. vm_compute. repeat split. Qed.

Lemma battery_monitor_spec_witness :
  exists w',
    battery_monitor pybadge sample_library 30000
      (set_sensor_valid (Some false) pybadge_world) = Ok tt w' /\
    flashed "LOW BATTERY" 1000 (set_sensor_valid (Some false) pybadge_world) w' /\
    log w' = ([Flash "3.02 volts" 1000; Flash "LOW BATTERY" 1000; Tone 880 30]
              ++ log pybadge_world)%list /\
    4000 <= monotonic w'.
Proof.
  destruct (battery_monitor_spec pybadge sample_library 30000 false
              (set_sensor_valid (Some false) pybadge_world) eq_refl eq_refl
              ltac:(lia))
    as (_ & _ & w' & Hrun & Hiff & Hlog & _).
  assert (Hlow : (battery_volts 30000 < Py.fl 3.3)%Q) by (vm_compute; reflexivity).
  exists w'. split; [exact Hrun|].
  split; [apply Hiff; split; [reflexivity | exact Hlow]|].
  destruct (Hlog eq_refl Hlow) as [Hl Hm].
  split; [rewrite Hl; vm_compute; reflexivity | exact Hm].
Defined.

Lemma co2_alarm_stateless_witness :
  exists w',
    co2_alarm pybadge sample_library (pybadge_showing 2500) = Ok tt w' /\
    flashed "ALARM" 750 (pybadge_showing 2500) w'.
Proof.
  destruct (co2_alarm_stateless pybadge sample_library (Some 2500) 2499
              (pybadge_showing 2500) eq_refl eq_refl)
    as (w' & Hrun & Hiff & _).
  exists w'. split; [exact Hrun|].
  apply Hiff. exists 2500. split; [reflexivity|]. cbn. lia.
Defined.

(** ** The start-up fill of the trend charts *)

Lemma init_trend_lengths (cfg : Config) (chart : list Q) (group : list Rect) :
  init_trend cfg = inr (chart, group) -> length chart = length group.
Proof.
  unfold init_trend.
  destruct (Py.truediv _ _) as [e|q]; [discriminate|].
  destruct (Py.range0 _ _) as [e|idx]; [discriminate|].
  intros [= H].
  assert (Hinv : forall (l : list Z) (acc : list Q * list Rect),
            length (fst acc) = length (snd acc) ->
            length (fst (fold_left
                           (fun acc i =>
                              (Py.insert0 (fst acc) (inject_Z (HEIGHT cfg)),
                               Py.append (snd acc)
                                 (mkRect None (WIDTH cfg - 28 - i) (HEIGHT cfg - 6))))
                           l acc))
            = length (snd (fold_left
                           (fun acc i =>
                              (Py.insert0 (fst acc) (inject_Z (HEIGHT cfg)),
                               Py.append (snd acc)
                                 (mkRect None (WIDTH cfg - 28 - i) (HEIGHT cfg - 6))))
                           l acc))).
  { induction l as [|i l IH]; intros acc Hacc; [exact Hacc|].
    cbn [fold_left]. apply IH. cbn [fst snd]. unfold Py.insert0, Py.append.
    rewrite length_app. cbn. lia. }
  specialize (Hinv idx ([], []) eq_refl). rewrite H in Hinv. exact Hinv.
Qed.

(** On the 160-pixel PyBadge the fill yields 44 points per chart. *)
Example pybadge_trend_capacity :
  length (co2_trend_chart pybadge_world) = 44%nat /\
  length (co2_trend_group pybadge_world) = 44%nat /\
  length (aqi_trend_chart pybadge_world) = 44%nat /\
  length (aqi_trend_group pybadge_world) = 44%nat.
Proof. repeat split; vm_compute; reflexivity. Qed.

(** ** The theorems at concrete inputs *)

Lemma co2_wait_never_times_out_witness :
  exists w',
    update_co2_image_frame pybadge sample_library silent_env 5 true 3000 pybadge_world
      = Running w' /\
    monotonic w' = 5000.
Proof.
  destruct (co2_wait_never_times_out pybadge sample_library silent_env 5 3000 pybadge_world
              eq_refl (fun _ => eq_refl) ltac:(lia)) as ((w' & Hrun & Hclock) & _).
  exists w'. split; [exact Hrun|]. rewrite Hclock. reflexivity.
Defined.

Lemma update_co2_no_data_witness :
  update_co2_image_frame pybadge sample_library silent_env 0 false 3000 pybadge_world
    = Ok true (set_polls 1 pybadge_world).
Proof.
  exact (proj1 (update_co2_no_data pybadge sample_library silent_env 0 3000 pybadge_world
                  eq_refl eq_refl)).
Defined.

(** C1 as the specification words it ("no data gives valid = False")
    does not hold on a PyBadge whose CO2 sensor has nothing ready: the
    non-blocking call returns [True]. *)
Lemma update_co2_no_data_returns_true :
  co2_sensor_exists pybadge = true /\
  scd_data_available silent_env (polls pybadge_world) = false /\
  update_co2_image_frame pybadge sample_library silent_env 0 false 3000 pybadge_world
    = Ok true (set_polls 1 pybadge_world) /\
  forall w',
    update_co2_image_frame pybadge sample_library silent_env 0 false 3000 pybadge_world
      <> Ok false w'.
Proof.
  split; [reflexivity|]. split; [reflexivity|]. split; [reflexivity|].
  intros w' H. change (Ok true (set_polls 1 pybadge_world) = Ok false w') in H.
  discriminate H.
Qed.

Lemma co2_overrange_faults_witness :
  exists w',
    update_co2_image_frame pybadge sample_library
      (scripted_env (fun _ => 6500%Q) 1 []) 0 false 3000 pybadge_world
      = Raised (Py.NameError "co2_poointer_shadow") w' /\
    r_y (rects w' co2_pointer) = 130 /\
    log w' = log pybadge_world.
Proof.
  destruct (co2_overrange_faults pybadge sample_library
              (scripted_env (fun _ => 6500%Q) 1 []) 0 3000 pybadge_world
              true 6500 RED "OVERRANGE" eq_refl eq_refl eq_refl ltac:(lia))
    as (w' & Hrun & Hy & _ & Hlog & _).
  exists w'. split; [exact Hrun|]. split; [rewrite Hy; reflexivity | exact Hlog].
Defined.

Lemma co2_push_normalised_witness :
  exists w',
    update_co2_image_frame pybadge sample_library
      (scripted_env (fun _ => 1200%Q) 1 []) 0 false 3000 pybadge_world = Ok true w' /\
    last (co2_trend_chart w') = Some (inject_Z 1200 / 6000)%Q /\
    length (co2_trend_chart w') = 44%nat.
Proof.
  destruct (co2_push_normalised pybadge sample_library
              (scripted_env (fun _ => 1200%Q) 1 []) 0 3000 pybadge_world
              true 1200 YELLOW "POOR" eq_refl eq_refl eq_refl
              ltac:(vm_compute; discriminate)
              ltac:(vm_compute; lia)) as [Hin _].
  destruct (Hin ltac:(lia)) as (w' & Hrun & Hchart & _).
  exists w'. split; [exact Hrun|]. rewrite Hchart. split; vm_compute; reflexivity.
Defined.

Lemma sample_aq_sensor_zero_samples_witness :
  exists w',
    sample_aq_sensor silent_env 2301 pybadge_world = Raised Py.ZeroDivisionError w'.
Proof.
  destruct (sample_aq_sensor_zero_samples silent_env 2301 pybadge_world
              (fun _ => eq_refl) (fun _ => eq_refl) ltac:(lia)) as (w' & Hrun & _).
  exists w'. exact Hrun.
Defined.

(** Samples [10, 20, 30], one failed read in between: the mean is 20. *)
Lemma sample_aq_sensor_mean_witness :
  exists mean w',
    sample_aq_sensor (scripted_env (fun _ => 0%Q) 1 [Some 10; None; Some 20; Some 30])
      2301 pybadge_world = Ok mean w' /\
    (mean == 20)%Q /\
    pm_reads w' = 4%nat /\
    monotonic w' = 3004.
Proof.
  destruct (sample_aq_sensor_mean
              (scripted_env (fun _ => 0%Q) 1 [Some 10; None; Some 20; Some 30])
              2301 pybadge_world (fun _ => eq_refl) ltac:(lia))
    as (n & w' & Hloop & Hreads & Hclock & Hend & Hwin & _ & Hmean).
  change (pm_reads pybadge_world) with 0%nat in *.
  change (monotonic pybadge_world) with 0 in *.
  assert (Hn : n = 4%nat).
  { destruct n as [|[|[|[|[|n]]]]]; try reflexivity; exfalso;
      first [ specialize (Hwin 4%nat ltac:(lia)); vm_compute in Hwin; now apply Hwin
            | set (e := elapsed _) in Hclock; vm_compute in e; subst e; lia ]. }
  subst n.
  destruct (Hmean ltac:(vm_compute; discriminate)) as (mean & Hrun & Heq).
  exists mean, w'. split; [exact Hrun|]. split.
  - change (mean * 3 == 60)%Q in Heq.
    assert (H : (mean == mean * 3 / 3)%Q) by (field).
    rewrite H, Heq. reflexivity.
  - split; [exact Hreads | rewrite Hclock; reflexivity].
Defined.

Lemma update_aqi_returns_true_witness :
  exists w',
    update_aqi_image_frame pybadge sample_library
      (scripted_env (fun _ => 0%Q) 1 [Some 600]) 2301 false 3000 pybadge_world
      = Ok true w' /\
    sensor_valid w' = None.
Proof.
  destruct (update_aqi_returns_true pybadge sample_library
              (scripted_env (fun _ => 0%Q) 1 [Some 600]) 2301 false 3000 pybadge_world)
    as (_ & Hpresent & _).
  apply Hpresent.
  - reflexivity.
  - intros k. reflexivity.
  - lia.
  - vm_compute. discriminate.
  - vm_compute. lia.
  - vm_compute. discriminate.
Defined.

Lemma update_aqi_zero_samples_faults_witness :
  exists w',
    update_aqi_image_frame pybadge sample_library silent_env 2301 false 3000 pybadge_world
      = Raised Py.ZeroDivisionError w' /\
    forall w'',
      update_aqi_image_frame pybadge sample_library silent_env 2301 false 3000
        pybadge_world <> Ok true w''.
Proof.
  destruct (update_aqi_zero_samples_faults pybadge sample_library silent_env 2301 false
              3000 pybadge_world eq_refl (fun _ => eq_refl) (fun _ => eq_refl)
              ltac:(lia)) as (w' & Hrun & _ & _ & Hnever).
  exists w'. split; [exact Hrun | exact (Hnever true)].
Defined.

(** * Further properties of code.py *)

Section Frames.

Context (cfg : Config) (lib : Library) (env : Env).

(** ** What the routines leave alone *)

Lemma on_return_bind {A B : Type} (R : World -> World -> Prop) (m : M A) (k : A -> M B) :
  (forall w1 w2 w3, R w1 w2 -> R w2 w3 -> R w1 w3) ->
  on_return R m -> (forall a, on_return R (k a)) -> on_return R (bind m k).
Proof.
  intros Htrans Hm Hk w b w'. unfold bind.
  destruct (m w) as [a w1|e w1|w1] eqn:Hrun; try discriminate.
  intros Hrun2. eapply Htrans; [eapply Hm | eapply Hk]; eassumption.
Qed.

Lemma on_return_weaken {A : Type} (R R' : World -> World -> Prop) (m : M A) :
  (forall w w', R w w' -> R' w w') -> on_return R m -> on_return R' m.
Proof. intros Hsub Hm w a w' Hrun. apply Hsub. eapply Hm. eassumption. Qed.

Lemma kept_refl (w : World) : kept w w.
Proof. repeat split. Qed.

Lemma kept_trans (w1 w2 w3 : World) : kept w1 w2 -> kept w2 w3 -> kept w1 w3.
Proof.
  unfold kept. intros H1 H2.
  repeat match goal with H : _ /\ _ |- _ => destruct H end.
  repeat split; congruence.
Qed.

Lemma steady_co2_trans (w1 w2 w3 : World) :
  steady_co2 w1 w2 -> steady_co2 w2 w3 -> steady_co2 w1 w3.
Proof.
  unfold steady_co2. intros H1 H2.
  repeat match goal with H : _ /\ _ |- _ => destruct H end.
  repeat split; congruence.
Qed.

Lemma steady_aqi_trans (w1 w2 w3 : World) :
  steady_aqi w1 w2 -> steady_aqi w2 w3 -> steady_aqi w1 w3.
Proof.
  unfold steady_aqi. intros H1 H2.
  repeat match goal with H : _ /\ _ |- _ => destruct H end.
  repeat split; congruence.
Qed.

Lemma same_lengths_trans (w1 w2 w3 : World) :
  same_lengths w1 w2 -> same_lengths w2 w3 -> same_lengths w1 w3.
Proof.
  unfold same_lengths. intros H1 H2.
  repeat match goal with H : _ /\ _ |- _ => destruct H end.
  repeat split; congruence.
Qed.

Lemma kept_steady_co2 (w w' : World) : kept w w' -> steady_co2 w w'.
Proof.
  unfold kept, steady_co2. intros H.
  repeat match goal with H : _ /\ _ |- _ => destruct H end.
  repeat split; congruence.
Qed.

Lemma kept_steady_aqi (w w' : World) : kept w w' -> steady_aqi w w'.
Proof.
  unfold kept, steady_aqi. intros H.
  repeat match goal with H : _ /\ _ |- _ => destruct H end.
  repeat split; congruence.
Qed.

Lemma steady_co2_lengths (w w' : World) : steady_co2 w w' -> same_lengths w w'.
Proof.
  unfold steady_co2, same_lengths. intros H.
  repeat match goal with H : _ /\ _ |- _ => destruct H end.
  repeat split; congruence.
Qed.

Lemma steady_aqi_lengths (w w' : World) : steady_aqi w w' -> same_lengths w w'.
Proof.
  unfold steady_aqi, same_lengths. intros H.
  repeat match goal with H : _ /\ _ |- _ => destruct H end.
  repeat split; congruence.
Qed.

Lemma kept_modify (f : World -> World) :
  (forall w, kept w (f w)) -> on_return kept (modify f).
Proof. intros Hf w a w' [= _ <-]. apply Hf. Qed.

Lemma kept_ret {A : Type} (a : A) : on_return kept (ret a).
Proof. intros w b w' [= _ <-]. apply kept_refl. Qed.

Lemma kept_gets {A : Type} (f : World -> A) : on_return kept (gets f).
Proof. intros w b w' [= _ <-]. apply kept_refl. Qed.

Lemma kept_lift {A : Type} (r : Py.Exn + A) : on_return kept (lift r).
Proof. destruct r; intros w b w'; [discriminate | intros [= _ <-]; apply kept_refl]. Qed.

Lemma kept_raise {A : Type} (e : Py.Exn) : on_return kept (@raise A e).
Proof. intros w b w'. discriminate. Qed.

Lemma kept_set_label_text (i : LabelId) (t : string) : on_return kept (set_label_text i t).
Proof. apply kept_modify. intros w. repeat split. Qed.

Lemma kept_set_label_color (i : LabelId) (c : option Color) :
  on_return kept (set_label_color i c).
Proof. apply kept_modify. intros w. repeat split. Qed.

Lemma kept_set_rect_fill (i : RectId) (c : option Color) : on_return kept (set_rect_fill i c).
Proof. apply kept_modify. intros w. repeat split. Qed.

Lemma kept_set_rect_x (i : RectId) (v : Z) : on_return kept (set_rect_x i v).
Proof. apply kept_modify. intros w. repeat split. Qed.

Lemma kept_set_rect_y (i : RectId) (v : Z) : on_return kept (set_rect_y i v).
Proof. apply kept_modify. intros w. repeat split. Qed.

Lemma kept_sleep (d : Z) : on_return kept (sleep d).
Proof. apply kept_modify. intros w. repeat split. Qed.

Lemma kept_emit (e : Event) : on_return kept (emit e).
Proof. apply kept_modify. intros w. repeat split. Qed.

Lemma kept_set_pixels (c : option Color) : on_return kept (modify (set_pixels c)).
Proof. apply kept_modify. intros w. repeat split. Qed.

Lemma kept_data_available : on_return kept (data_available env).
Proof. intros w a w' [= _ <-]. repeat split. Qed.

Lemma kept_pm25_read : on_return kept (pm25_read env).
Proof. intros w a w' [= _ <-]. repeat split. Qed.

Create HintDb frames.
#[local] Hint Resolve kept_ret kept_gets kept_lift kept_raise kept_set_label_text
  kept_set_label_color kept_set_rect_fill kept_set_rect_x kept_set_rect_y kept_sleep
  kept_emit kept_set_pixels kept_data_available kept_pm25_read : frames.

Ltac frames :=
  repeat (apply (on_return_bind kept _ _ kept_trans); [|intros ?]); auto with frames.

Lemma kept_flash_status (text : string) (d : Z) : on_return kept (flash_status text d).
Proof. unfold flash_status. frames. Qed.

Lemma kept_play_tone (freq d : Z) : on_return kept (play_tone cfg freq d).
Proof. unfold play_tone. destruct (has_speaker cfg); auto with frames. Qed.

Lemma kept_print (t : string) : on_return kept (print t).
Proof. apply kept_emit. Qed.

#[local] Hint Resolve kept_flash_status kept_play_tone kept_print : frames.

Lemma kept_co2_wait (fuel : nat) (blocking : bool) (wait_time t_0 : Z) :
  on_return kept (co2_wait lib env fuel blocking wait_time t_0).
Proof.
  induction fuel as [|fuel IH]; intros w a w'; cbn [co2_wait];
    (destruct blocking; [|intros [= _ <-]; apply kept_refl]);
    revert w a w'; apply (on_return_bind kept _ _ kept_trans); auto with frames;
    intros avail; (destruct avail; cbn [negb]; [auto with frames|]);
    apply (on_return_bind kept _ _ kept_trans); auto with frames;
    intros t; destruct (t_0 - t <? wait_time); auto with frames.
  - intros w a w'. discriminate.
  - frames.
Qed.

Lemma kept_sample_loop (fuel : nat) :
  forall (time_start : Z) (acc : list Z),
    on_return kept (sample_loop env fuel time_start acc).
Proof.
  induction fuel as [|fuel IH]; intros time_start acc w a w'; cbn [sample_loop];
    (destruct (monotonic w - time_start <=? 2300);
     [|intros [= _ <-]; apply kept_refl]); [discriminate|].
  revert w a w'. apply (on_return_bind kept _ _ kept_trans); auto with frames.
  intros [v|]; frames.
Qed.

Lemma kept_sample_aq_sensor (fuel : nat) : on_return kept (sample_aq_sensor env fuel).
Proof.
  unfold sample_aq_sensor.
  apply (on_return_bind kept _ _ kept_trans); auto with frames. intros ts.
  apply (on_return_bind kept _ _ kept_trans); [apply kept_sample_loop|]. intros samples.
  frames.
Qed.

Lemma draw_trend_length (idx : list nat) (chart : list Q) (c : Color) :
  forall group group' : list Rect,
    draw_trend cfg idx chart c group = inr group' -> length group' = length group.
Proof.
  induction idx as [|i idx IH]; intros group group'; cbn [draw_trend].
  - now intros [= <-].
  - destruct (chart !! i) as [v|]; [|discriminate].
    destruct (group !! (length chart - i - 1)%nat) as [r|]; [|discriminate].
    intros H. apply IH in H. now rewrite length_insert in H.
Qed.

Lemma trend_push_length (chart chart' : list Q) (v : Q) :
  trend_push chart v = inr chart' -> length chart' = length chart.
Proof.
  destruct chart as [|c chart]; [discriminate|].
  rewrite trend_push_cons. intros [= <-]. rewrite length_app. cbn. lia.
Qed.

Ltac peel R Rtrans sub :=
  apply (on_return_bind R _ _ Rtrans);
  [apply (on_return_weaken kept R _ sub); auto with frames | intros ?].

Lemma steady_update_co2 (fuel : nat) (blocking : bool) (wait_time : Z) :
  on_return steady_co2 (update_co2_image_frame cfg lib env fuel blocking wait_time).
Proof.
  assert (Hret : forall b : bool, on_return steady_co2 (ret b)).
  { intros b. apply (on_return_weaken kept _ _ kept_steady_co2), kept_ret. }
  unfold update_co2_image_frame.
  destruct (co2_sensor_exists cfg); [|apply Hret].
  peel steady_co2 steady_co2_trans kept_steady_co2.
  apply (on_return_bind steady_co2 _ _ steady_co2_trans);
    [apply (on_return_weaken kept _ _ kept_steady_co2), kept_co2_wait | intros _].
  peel steady_co2 steady_co2_trans kept_steady_co2.
  match goal with |- on_return _ (if ?c then _ else _) => destruct c end; [|apply Hret].
  do 2 peel steady_co2 steady_co2_trans kept_steady_co2.
  destruct (co2_ppm_to_quality lib _) as [[[valid ppm] col] label].
  do 2 peel steady_co2 steady_co2_trans kept_steady_co2.
  apply (on_return_bind steady_co2 _ _ steady_co2_trans).
  { apply (on_return_weaken kept _ _ kept_steady_co2).
    destruct (ppm <? 6000); frames. }
  intros _.
  do 6 peel steady_co2 steady_co2_trans kept_steady_co2.
  intros w b w'. unfold bind, gets, modify, ret.
  destruct (draw_trend _ _ _ _ _) as [e|group'] eqn:Hdraw; [discriminate|].
  apply draw_trend_length in Hdraw. cbn [lift]. unfold ret.
  destruct (trend_push _ _) as [e|chart'] eqn:Hpush; [discriminate|].
  apply trend_push_length in Hpush. cbn [lift]. unfold ret.
  intros [= _ <-]. repeat split; assumption.
Qed.

Lemma steady_update_aqi (fuel : nat) (blocking : bool) (wait_time : Z) :
  on_return steady_aqi (update_aqi_image_frame cfg lib env fuel blocking wait_time).
Proof.
  unfold update_aqi_image_frame.
  destruct (aqi_sensor_exists cfg);
    [|apply (on_return_weaken kept _ _ kept_steady_aqi), kept_ret].
  apply (on_return_bind steady_aqi _ _ steady_aqi_trans);
    [apply (on_return_weaken kept _ _ kept_steady_aqi), kept_sample_aq_sensor
    | intros sensor_pm25].
  destruct (concentration_to_aqi lib sensor_pm25) as [[[flag aqi] col] label].
  peel steady_aqi steady_aqi_trans kept_steady_aqi.
  apply (on_return_bind steady_aqi _ _ steady_aqi_trans).
  { apply (on_return_weaken kept _ _ kept_steady_aqi).
    destruct (aqi <? 500); frames. }
  intros _.
  do 3 peel steady_aqi steady_aqi_trans kept_steady_aqi.
  intros w b w'. unfold bind, gets, modify, ret.
  destruct (draw_trend _ _ _ _ _) as [e|group'] eqn:Hdraw; [discriminate|].
  apply draw_trend_length in Hdraw. cbn [lift]. unfold ret.
  destruct (trend_push _ _) as [e|chart'] eqn:Hpush; [discriminate|].
  apply trend_push_length in Hpush. cbn [lift]. unfold ret.
  intros [= _ <-]. repeat split; assumption.
Qed.

Lemma kept_same_lengths (w w' : World) : kept w w' -> same_lengths w w'.
Proof. intros H. now apply steady_co2_lengths, kept_steady_co2. Qed.

Lemma same_lengths_modify (f : World -> World) :
  (forall w, same_lengths w (f w)) -> on_return same_lengths (modify f).
Proof. intros Hf w a w' [= _ <-]. apply Hf. Qed.

Ltac lengths :=
  repeat first
    [ apply (on_return_bind same_lengths _ _ same_lengths_trans); [|intros ?]
    | match goal with
      | |- on_return _ (if ?c then _ else _) => destruct c
      | |- on_return _ (match ?c with _ => _ end) => destruct c
      end ];
  try solve
    [ apply (on_return_weaken kept same_lengths _ kept_same_lengths); auto with frames
    | apply same_lengths_modify; intros ?; repeat split
    | apply (on_return_weaken steady_co2 same_lengths _ steady_co2_lengths),
        steady_update_co2
    | apply (on_return_weaken steady_aqi same_lengths _ steady_aqi_lengths),
        steady_update_aqi ].

Lemma lengths_co2_alarm : on_return same_lengths (co2_alarm cfg lib).
Proof. unfold co2_alarm. lengths. Qed.

Lemma lengths_battery_monitor (raw : Z) :
  on_return same_lengths (battery_monitor cfg lib raw).
Proof. unfold battery_monitor. lengths. Qed.

Lemma lengths_buttons (button_pressed : string) (hold_time : Z) :
  on_return same_lengths (buttons cfg lib button_pressed hold_time).
Proof. unfold buttons. lengths. Qed.

Lemma lengths_loop_pass (fuel : nat) (button_pressed : string) (hold_time raw : Z) :
  on_return same_lengths (loop_pass cfg lib env fuel button_pressed hold_time raw).
Proof.
  unfold loop_pass.
  apply (on_return_bind same_lengths _ _ same_lengths_trans);
    [apply lengths_buttons | intros _].
  do 2 (apply (on_return_bind same_lengths _ _ same_lengths_trans); [lengths | intros ?]).
  apply (on_return_bind same_lengths _ _ same_lengths_trans); [lengths | intros _].
  apply (on_return_bind same_lengths _ _ same_lengths_trans);
    [apply lengths_co2_alarm | intros _].
  apply lengths_battery_monitor.
Qed.

Lemma lengths_setup (fuel : nat) : on_return same_lengths (setup cfg lib env fuel).
Proof.
  unfold setup.
  do 2 (apply (on_return_bind same_lengths _ _ same_lengths_trans); [lengths | intros _]).
  lengths.
Qed.

End Frames.

(** ** Start-up: the size and the contents of the trend charts *)

Lemma truediv_positive (a b : Z) :
  0 < b ->
  Py.truediv (inject_Z a) (inject_Z b) = inr (inject_Z a / inject_Z b)%Q /\
  Py.int (inject_Z a / inject_Z b)%Q = Z.quot a b.
Proof.
  intros Hb. destruct b as [|p|p]; try lia. split.
  - reflexivity.
  - unfold Py.int. cbn. now rewrite Z.mul_1_r.
Qed.

Lemma range_from_done (fuel : nat) (i stop step : Z) :
  stop <= i -> Py.range_from fuel i stop step = [].
Proof.
  intros H. destruct fuel; [reflexivity|]. cbn [Py.range_from].
  now replace (i <? stop) with false by (symmetry; apply Z.ltb_ge; lia).
Qed.

Lemma range_from_length (step stop : Z) :
  0 < step ->
  forall (fuel : nat) (i : Z),
    stop - i <= Z.of_nat fuel -> i < stop ->
    (Z.of_nat (length (Py.range_from fuel i stop step)) - 1) * step < stop - i /\
    stop - i <= Z.of_nat (length (Py.range_from fuel i stop step)) * step.
Proof.
  intros Hstep. induction fuel as [|fuel IH]; intros i Hfuel Hi; [lia|].
  cbn [Py.range_from].
  replace (i <? stop) with true by (symmetry; apply Z.ltb_lt; lia).
  cbn [length]. rewrite Nat2Z.inj_succ.
  destruct (Z.lt_ge_cases (i + step) stop) as [Hmore|Hlast].
  - destruct (IH (i + step) ltac:(lia) Hmore) as [Hlo Hhi]. split; nia.
  - rewrite range_from_done by lia. cbn [length]. split; lia.
Qed.

Lemma init_fill_lengths (height width : Z) (idx : list Z) :
  forall acc : list Q * list Rect,
    length (fst (fold_left
                   (fun acc i =>
                      (Py.insert0 (fst acc) (inject_Z height),
                       Py.append (snd acc) (mkRect None (width - 28 - i) (height - 6))))
                   idx acc))
    = (length (fst acc) + length idx)%nat /\
    length (snd (fold_left
                   (fun acc i =>
                      (Py.insert0 (fst acc) (inject_Z height),
                       Py.append (snd acc) (mkRect None (width - 28 - i) (height - 6))))
                   idx acc))
    = (length (snd acc) + length idx)%nat /\
    (Forall (fun v => v = inject_Z height) (fst acc) ->
     Forall (fun v => v = inject_Z height)
       (fst (fold_left
               (fun acc i =>
                  (Py.insert0 (fst acc) (inject_Z height),
                   Py.append (snd acc) (mkRect None (width - 28 - i) (height - 6))))
               idx acc))) /\
    (Forall (fun r => r_fill r = None /\ r_y r = height - 6) (snd acc) ->
     Forall (fun r => r_fill r = None /\ r_y r = height - 6)
       (snd (fold_left
               (fun acc i =>
                  (Py.insert0 (fst acc) (inject_Z height),
                   Py.append (snd acc) (mkRect None (width - 28 - i) (height - 6))))
               idx acc))).
Proof.
  induction idx as [|i idx IH]; intros acc.
  - cbn [fold_left length]. repeat split; auto; lia.
  - cbn [fold_left].
    destruct (IH (Py.insert0 (fst acc) (inject_Z height),
                  Py.append (snd acc) (mkRect None (width - 28 - i) (height - 6))))
      as (H1 & H2 & H3 & H4).
    cbn [fst snd] in H1, H2, H3, H4. unfold Py.insert0, Py.append in *.
    rewrite H1, H2. rewrite length_app. cbn [length].
    repeat split; try lia.
    + intros Hacc. apply H3. now constructor.
    + intros Hacc. apply H4. apply Forall_app. split; [exact Hacc|].
      constructor; [now split | constructor].
Qed.

(** X1.  Whenever the start-up fill succeeds, the chart and its group of
    bars have the same number of entries, every chart entry is the
    placeholder [HEIGHT], and every bar is unfilled at [y = HEIGHT - 6]. *)
Theorem init_trend_shape (cfg : Config) (chart : list Q) (group : list Rect) :
  init_trend cfg = inr (chart, group) ->
  length chart = length group /\
  Forall (fun v => v = inject_Z (HEIGHT cfg)) chart /\
  Forall (fun r => r_fill r = None /\ r_y r = HEIGHT cfg - 6) group.
Proof.
  unfold init_trend.
  destruct (Py.truediv _ _) as [e|q]; [discriminate|].
  destruct (Py.range0 _ _) as [e|idx]; [discriminate|].
  intros [= H].
  destruct (init_fill_lengths (HEIGHT cfg) (WIDTH cfg) idx ([], []))
    as (H1 & H2 & H3 & H4).
  rewrite H in H1, H2, H3, H4. cbn [fst snd length] in *.
  split; [lia|]. split; [apply H3 | apply H4]; constructor.
Qed.

Lemma init_trend_shape_witness :
  length (co2_trend_chart pybadge_world) = length (co2_trend_group pybadge_world) /\
  Forall (fun v => v = 128%Q) (co2_trend_chart pybadge_world).
Proof.
  destruct (init_trend pybadge) as [e|[chart group]] eqn:Hinit;
    [vm_compute in Hinit; discriminate Hinit|].
  destruct (init_trend_shape pybadge chart group Hinit) as (Hlen & Hchart & _).
  unfold pybadge_world. rewrite Hinit. split; [exact Hlen | exact Hchart].
Defined.

(** X2.  On a display that leaves at least [trend_points] pixels beside
    the 28-pixel margin, the fill succeeds with the point width
    [(WIDTH - 28) // trend_points] and makes as many points as it takes
    to cover the [WIDTH - 28] pixels at that width: never fewer than
    [trend_points], and more whenever the division leaves a remainder. *)
Theorem init_trend_count (cfg : Config) :
  0 < trend_points cfg <= WIDTH cfg - 28 ->
  exists chart group,
    init_trend cfg = inr (chart, group) /\
    length group = length chart /\
    (Z.of_nat (length chart) - 1) * ((WIDTH cfg - 28) / trend_points cfg) < WIDTH cfg - 28 /\
    WIDTH cfg - 28 <= Z.of_nat (length chart) * ((WIDTH cfg - 28) / trend_points cfg) /\
    trend_points cfg <= Z.of_nat (length chart).
Proof.
  intros [Htp Hw].
  destruct (truediv_positive (WIDTH cfg - 28) (trend_points cfg) Htp) as [Hdiv Hint].
  unfold init_trend. rewrite Hdiv, Hint.
  rewrite Z.quot_div_nonneg by lia.
  set (pw := (WIDTH cfg - 28) / trend_points cfg).
  assert (Hpw : 1 <= pw) by (apply Z.div_le_lower_bound; lia).
  assert (Hmul : pw * trend_points cfg <= WIDTH cfg - 28)
    by (rewrite Z.mul_comm; apply Z.mul_div_le; lia).
  unfold Py.range0.
  replace (pw =? 0) with false by (symmetry; apply Z.eqb_neq; lia).
  replace (pw <? 0) with false by (symmetry; apply Z.ltb_ge; lia).
  set (idx := Py.range_from (Z.to_nat (WIDTH cfg - 28)) 0 (WIDTH cfg - 28) pw).
  destruct (range_from_length pw (WIDTH cfg - 28) ltac:(lia)
              (Z.to_nat (WIDTH cfg - 28)) 0 ltac:(lia) ltac:(lia)) as [Hlo Hhi].
  fold idx in Hlo, Hhi.
  destruct (init_fill_lengths (HEIGHT cfg) (WIDTH cfg) idx ([], [])) as (H1 & H2 & _).
  cbn [fst snd length] in H1, H2.
  eexists _, _. split; [apply f_equal, surjective_pairing|].
  rewrite H1, H2. cbn [Nat.add]. repeat split; try lia. nia.
Qed.

Lemma init_trend_count_witness :
  exists chart group,
    init_trend pybadge = inr (chart, group) /\
    40 <= Z.of_nat (length chart) /\
    length group = length chart.
Proof.
  destruct (init_trend_count pybadge ltac:(cbn; lia))
    as (chart & group & Hinit & Hlen & _ & _ & Hmin).
  exists chart, group. split; [exact Hinit|]. split; [exact Hmin | exact Hlen].
Defined.

(** X3.  The fill fails before any point is made when [trend_points] is
    0 (the division raises [ZeroDivisionError]) and when the display
    leaves fewer than [trend_points] pixels beside the margin (the point
    width is 0 and [range] raises [ValueError]). *)
Theorem init_trend_errors (cfg : Config) :
  (trend_points cfg = 0 -> init_trend cfg = inl Py.ZeroDivisionError) /\
  (0 <= WIDTH cfg - 28 < trend_points cfg -> init_trend cfg = inl Py.ValueError).
Proof.
  split.
  - intros H. unfold init_trend. now rewrite H.
  - intros [Hlo Hhi].
    destruct (truediv_positive (WIDTH cfg - 28) (trend_points cfg) ltac:(lia))
      as [Hdiv Hint].
    unfold init_trend. rewrite Hdiv, Hint.
    rewrite Z.quot_small by lia. reflexivity.
Qed.

Lemma init_trend_errors_witness :
  init_trend (mkConfig true true true true true 160 128 0 (2500, RED, "ALARM") 2000)
    = inl Py.ZeroDivisionError /\
  init_trend (mkConfig true true true true true 60 128 40 (2500, RED, "ALARM") 2000)
    = inl Py.ValueError.
Proof.
  split.
  - apply (proj1 (init_trend_errors _)). reflexivity.
  - apply (proj2 (init_trend_errors _)). cbn. lia.
Defined.

(** ** The bars of a trend chart *)




(** ** What an update puts on the display *)

Section Display.

Context (cfg : Config) (lib : Library) (env : Env).

(** Symbolic execution on a world given by its fields. *)
Ltac exec :=
  cbv beta iota delta
    [update_co2_image_frame update_aqi_image_frame buttons co2_alarm
     battery_monitor play_tone flash_status print
     bind gets modify ret raise lift data_available pm25_read sleep emit
     set_rect_fill set_rect_x set_rect_y set_label_text set_label_color
     set_monotonic set_polls set_pm_reads set_TEMP_UNIT set_TRANSLATE set_t0
     set_sensor_valid set_rects set_labels set_co2_trend_chart
     set_co2_trend_group set_aqi_trend_chart set_aqi_trend_group set_pixels set_log
     monotonic polls pm_reads TEMP_UNIT TRANSLATE t0 sensor_valid rects labels
     co2_trend_chart co2_trend_group aqi_trend_chart aqi_trend_group pixels log].

Ltac fields :=
  cbn [monotonic polls pm_reads TEMP_UNIT TRANSLATE t0 sensor_valid rects labels
       co2_trend_chart co2_trend_group aqi_trend_chart aqi_trend_group pixels log] in *.

(** The pointer of an in-range reading stays on the scale. *)
Lemma pointer_on_scale (ppm height : Z) :
  0 <= ppm < 6000 -> 0 <= height ->
  0 <= Py.int (inject_Z ppm / 6000 * inject_Z height)%Q <= height.
Proof.
  intros Hppm Hh.
  assert (E : Py.int (inject_Z ppm / 6000 * inject_Z height)%Q
              = Z.quot (ppm * height) 6000).
  { unfold Py.int. cbn. now rewrite Z.mul_1_r. }
  rewrite E, Z.quot_div_nonneg by nia.
  split; [apply Z.div_pos; nia | apply Z.div_le_upper_bound; nia].
Qed.

Lemma update_co2_in_range (fuel : nat) (wait_time : Z) (w : World)
    (valid : bool) (ppm : Z) (col : Color) (label : string) :
  co2_sensor_exists cfg = true ->
  scd_data_available env (polls w) = true ->
  co2_ppm_to_quality lib (Py.round (scd_CO2 env (S (polls w)))) = (valid, ppm, col, label) ->
  ppm < 6000 ->
  co2_trend_chart w <> [] ->
  (length (co2_trend_chart w) <= length (co2_trend_group w))%nat ->
  exists w' group',
    update_co2_image_frame cfg lib env fuel false wait_time w = Ok valid w' /\
    draw_trend cfg (seq 0 (length (co2_trend_chart w))) (co2_trend_chart w) GRAY
      (co2_trend_group w) = inr group' /\
    co2_trend_group w' = group' /\
    co2_trend_chart w' = (tail (co2_trend_chart w) ++ [inject_Z ppm / 6000]%Q)%list /\
    l_text (labels w' co2_value) = Py.str ppm /\
    l_text (labels w' co2_humid_value)
      = Py.str (Py.round (scd_relative_humidity env (S (polls w)))) /\
    l_text (labels w' co2_temp_value)
      = Py.str (if String.eqb (TEMP_UNIT w) "F"
                then Py.round (celsius_to_fahrenheit lib
                                 (Py.round (scd_temperature env (S (polls w)))))
                else Py.round (scd_temperature env (S (polls w)))) /\
    l_text (labels w' co2_alarm_value) = Py.str (fst (fst (CO2_ALARM cfg))) /\
    l_text (labels w' co2_qual_label) = interpret lib (TRANSLATE w) label /\
    l_color (labels w' co2_qual_label) = Some col /\
    r_fill (rects w' co2_pointer) = Some GRAY /\
    (0 <= ppm -> 0 <= HEIGHT cfg ->
     -3 <= r_y (rects w' co2_pointer) <= HEIGHT cfg - 3) /\
    r_y (rects w' co2_pointer_shadow) = r_y (rects w' co2_pointer) /\
    r_fill (rects w' watchdog) = Some YELLOW /\
    log w' = log w /\ monotonic w' = monotonic w /\
    TRANSLATE w' = TRANSLATE w /\ TEMP_UNIT w' = TEMP_UNIT w.
Proof.
  intros Hex Havail Hclass Hin Hne Hlen.
  destruct (draw_trend_all cfg (co2_trend_chart w) GRAY (co2_trend_group w) Hlen)
    as (group' & Hdraw & _).
  unfold update_co2_image_frame. rewrite Hex.
  destruct w as [m p pr tu tr t_0 sv rs ls c1 g1 c2 g2 px lg]. fields.
  exec. rewrite co2_wait_nonblocking, Havail, Hclass.
  replace (ppm <? 6000) with true by (symmetry; apply Z.ltb_lt; lia).
  exec. rewrite Hdraw.
  destruct c1 as [|c0 c1]; [congruence|]. rewrite trend_push_cons.
  exec. eexists _, _. split; [reflexivity|].
  repeat (split; [reflexivity|]).
  split; [|repeat split; reflexivity].
  intros Hppm Hheight.
  pose proof (pointer_on_scale ppm (HEIGHT cfg) ltac:(lia) Hheight) as Hscale.
  match goal with
  | |- _ <= ?y <= _ =>
      assert (Hy : y = HEIGHT cfg
                       - Py.int (inject_Z ppm / 6000 * inject_Z (HEIGHT cfg))%Q - 3)
        by reflexivity;
      rewrite Hy
  end.
  lia.
Qed.


(** X6.  The reading that a CO2 update has just put on display is the
    one the alarm block compares: run after an in-range update, the
    alarm flashes exactly when the classified value is at least the
    threshold.  As only values below 6000 ever reach the display, a
    threshold of 6000 or more never fires. *)
Theorem update_then_alarm (fuel : nat) (wait_time : Z) (w : World)
    (valid : bool) (ppm : Z) (col : Color) (label : string) :
  co2_sensor_exists cfg = true ->
  scd_data_available env (polls w) = true ->
  co2_ppm_to_quality lib (Py.round (scd_CO2 env (S (polls w)))) = (valid, ppm, col, label) ->
  ppm < 6000 ->
  co2_trend_chart w <> [] ->
  (length (co2_trend_chart w) <= length (co2_trend_group w))%nat ->
  exists w' w'',
    update_co2_image_frame cfg lib env fuel false wait_time w = Ok valid w' /\
    co2_alarm cfg lib w' = Ok tt w'' /\
    (flashed (interpret lib (TRANSLATE w) "ALARM") 750 w' w''
     <-> fst (fst (CO2_ALARM cfg)) <= ppm) /\
    (6000 <= fst (fst (CO2_ALARM cfg)) -> w'' = w').
Proof.
  intros Hex Havail Hclass Hin Hne Hlen.
  destruct (update_co2_in_range fuel wait_time w valid ppm col label
              Hex Havail Hclass Hin Hne Hlen)
    as (w' & group' & Hrun & _ & _ & _ & Htext & _ & _ & _ & _ & _ & _ & _ & _ & _
        & _ & _ & Htr & _).
  destruct (co2_alarm_run cfg lib (Some ppm) w' Hex Htext) as (w'' & Halarm & Hiff & Hquiet).
  exists w', w''. split; [exact Hrun|]. split; [exact Halarm|]. split.
  - rewrite <- Htr, Hiff. split.
    + intros (v & Hv & Hle). now injection Hv as <-.
    + intros Hle. now exists ppm.
  - intros Hthr. apply Hquiet. intros v Hv. injection Hv as <-. lia.
Qed.

(** X7.  Once the sampling window has produced a mean, the particulate
    update always completes and returns [True]: it shows the
    classifier's AQI and label, redraws the bars from the chart as it
    was, and pushes [aqi / 500] as it is, without a clamp.  Below 500
    the purple pointer goes to [HEIGHT - int(aqi / 500 * HEIGHT) - 3]
    and nothing is flashed; from 500 on the pointer turns red, is
    pinned with its shadow at [y = 0], and OVERRANGE is flashed for
    twice 0.75 s. *)
Theorem update_aqi_shows_reading (fuel : nat) (blocking : bool) (wait_time : Z)
    (w w1 : World) (mean : Q) (flag : bool) (aqi : Z) (col : Color) (label : string) :
  aqi_sensor_exists cfg = true ->
  sample_aq_sensor env fuel w = Ok mean w1 ->
  concentration_to_aqi lib mean = (flag, aqi, col, label) ->
  aqi_trend_chart w1 <> [] ->
  (length (aqi_trend_chart w1) <= length (aqi_trend_group w1))%nat ->
  exists w' group',
    update_aqi_image_frame cfg lib env fuel blocking wait_time w = Ok true w' /\
    draw_trend cfg (seq 0 (length (aqi_trend_chart w1))) (aqi_trend_chart w1) PURPLE
      (aqi_trend_group w1) = inr group' /\
    aqi_trend_group w' = group' /\
    aqi_trend_chart w' = (tail (aqi_trend_chart w1) ++ [inject_Z aqi / 500]%Q)%list /\
    l_text (labels w' aqi_value) = Py.str aqi /\
    l_text (labels w' aqi_qual_label) = interpret lib (TRANSLATE w1) label /\
    l_color (labels w' aqi_qual_label) = Some col /\
    r_y (rects w' aqi_pointer_shadow) = r_y (rects w' aqi_pointer) /\
    (aqi < 500 ->
     r_fill (rects w' aqi_pointer) = Some PURPLE /\
     r_y (rects w' aqi_pointer)
       = HEIGHT cfg - Py.int (inject_Z aqi / 500 * inject_Z (HEIGHT cfg))%Q - 3 /\
     log w' = log w1 /\ monotonic w' = monotonic w1) /\
    (500 <= aqi ->
     r_fill (rects w' aqi_pointer) = Some RED /\
     r_y (rects w' aqi_pointer) = 0 /\
     log w' = Flash (interpret lib (TRANSLATE w1) "OVERRANGE") 750 :: log w1 /\
     monotonic w' = monotonic w1 + 1500).
Proof.
  intros Hex Hmean Hclass Hne Hlen.
  destruct (draw_trend_all cfg (aqi_trend_chart w1) PURPLE (aqi_trend_group w1) Hlen)
    as (group' & Hdraw & _).
  unfold update_aqi_image_frame. rewrite Hex.
  unfold bind at 1. rewrite Hmean, Hclass.
  destruct w1 as [m p pr tu tr t_0 sv rs ls c1 g1 c2 g2 px lg]. fields.
  destruct c2 as [|c0 c2]; [congruence|].
  destruct (Z.ltb_spec aqi 500) as [Hin|Hover].
  - exec. rewrite Hdraw, trend_push_cons. exec.
    eexists _, _. split; [reflexivity|].
    repeat split; try reflexivity; lia.
  - rewrite aqi_pointer_shadow_bound.
    exec. rewrite Hdraw, trend_push_cons. exec.
    eexists _, _. split; [reflexivity|].
    repeat split; try reflexivity; lia.
Qed.

End Display.

(** ** What an update leaves alone *)

(** X8.  Whatever path it takes, a CO2 update that returns has changed
    neither the number of points of its chart nor the number of its
    bars, has not touched the particulate chart and bars, and has left
    [TEMP_UNIT], [TRANSLATE], the loop timer and [sensor_valid] as they
    were. *)
Theorem update_co2_keeps_shape (cfg : Config) (lib : Library) (env : Env)
    (fuel : nat) (blocking : bool) (wait_time : Z) (w w' : World) (v : bool) :
  update_co2_image_frame cfg lib env fuel blocking wait_time w = Ok v w' ->
  steady_co2 w w'.
Proof. intros Hrun. eapply steady_update_co2. exact Hrun. Qed.

Lemma update_co2_keeps_shape_witness :
  exists v w',
    update_co2_image_frame pybadge sample_library (scripted_env (fun _ => 1200%Q) 1 [])
      0 false 3000 pybadge_world = Ok v w' /\
    steady_co2 pybadge_world w'.
Proof.
  destruct (update_co2_image_frame pybadge sample_library
              (scripted_env (fun _ => 1200%Q) 1 []) 0 false 3000 pybadge_world)
    as [v w'|e w'|w'] eqn:Hrun;
    [|vm_compute in Hrun; discriminate Hrun ..].
  exists v, w'. split; [reflexivity|].
  exact (update_co2_keeps_shape _ _ _ _ _ _ _ _ _ Hrun).
Defined.

(** X9.  The same for a particulate update and the CO2 chart: on return
    its own chart and bars have kept their sizes, and the CO2 chart and
    bars and the configuration are untouched. *)
Theorem update_aqi_keeps_shape (cfg : Config) (lib : Library) (env : Env)
    (fuel : nat) (blocking : bool) (wait_time : Z) (w w' : World) (v : bool) :
  update_aqi_image_frame cfg lib env fuel blocking wait_time w = Ok v w' ->
  steady_aqi w w'.
Proof. intros Hrun. eapply steady_update_aqi. exact Hrun. Qed.

Lemma update_aqi_keeps_shape_witness :
  exists v w',
    update_aqi_image_frame pybadge sample_library
      (scripted_env (fun _ => 0%Q) 1 [Some 600]) 10 false 3000 pybadge_world = Ok v w' /\
    steady_aqi pybadge_world w'.
Proof.
  destruct (update_aqi_image_frame pybadge sample_library
              (scripted_env (fun _ => 0%Q) 1 [Some 600]) 10 false 3000 pybadge_world)
    as [v w'|e w'|w'] eqn:Hrun;
    [|vm_compute in Hrun; discriminate Hrun ..].
  exists v, w'. split; [reflexivity|].
  exact (update_aqi_keeps_shape _ _ _ _ _ _ _ _ _ Hrun).
Defined.

Lemma lengths_main_loop (cfg : Config) (lib : Library) (env : Env) (fuel : nat)
    (inputs : list (string * Z * Z)) :
  on_return same_lengths (main_loop cfg lib env fuel inputs).
Proof.
  induction inputs as [|[[button_pressed hold_time] raw] rest IH]; cbn [main_loop].
  - intros w a w' [= _ <-]. repeat split.
  - apply (on_return_bind same_lengths _ _ same_lengths_trans);
      [apply lengths_loop_pass | intros _; exact IH].
Qed.

(** X10.  The sizes of the two trend charts and of their groups of bars
    are fixed at start-up: after the setup and any number of passes of
    the loop, whatever the buttons, the readings and the battery did,
    all four have the length they started with. *)
Theorem program_keeps_lengths (cfg : Config) (lib : Library) (env : Env) (fuel : nat)
    (inputs : list (string * Z * Z)) (w w' : World) :
  program cfg lib env fuel inputs w = Ok tt w' -> same_lengths w w'.
Proof.
  intros Hrun. revert Hrun. unfold program.
  apply (on_return_bind same_lengths _ _ same_lengths_trans).
  - apply lengths_setup.
  - intros _. apply lengths_main_loop.
Qed.

Lemma program_keeps_lengths_witness :
  exists w',
    program pybadge sample_library
      (scripted_env (fun _ => 1200%Q) 1 [Some 10; Some 20; Some 30]) 10
      [("", 0, 60000); ("temperature", 1500, 60000)] pybadge_world = Ok tt w' /\
    length (co2_trend_chart w') = 44%nat /\
    length (aqi_trend_chart w') = 44%nat.
Proof.
  destruct (program pybadge sample_library
              (scripted_env (fun _ => 1200%Q) 1 [Some 10; Some 20; Some 30]) 10
              [("", 0, 60000); ("temperature", 1500, 60000)] pybadge_world)
    as [[] w'|e w'|w'] eqn:Hrun;
    [|vm_compute in Hrun; discriminate Hrun ..].
  exists w'. split; [reflexivity|].
  destruct (program_keeps_lengths _ _ _ _ _ _ _ Hrun) as (H1 & _ & H3 & _).
  rewrite H1, H3. split; vm_compute; reflexivity.
Defined.


Lemma update_then_alarm_witness :
  exists w' w'',
    update_co2_image_frame pybadge sample_library (scripted_env (fun _ => 3000%Q) 1 [])
      0 false 3000 pybadge_world = Ok true w' /\
    co2_alarm pybadge sample_library w' = Ok tt w'' /\
    flashed "ALARM" 750 w' w''.
Proof.
  destruct (update_then_alarm pybadge sample_library
              (scripted_env (fun _ => 3000%Q) 1 []) 0 3000 pybadge_world
              true 3000 ORANGE "WARNING" eq_refl eq_refl eq_refl ltac:(lia)
              ltac:(vm_compute; discriminate) ltac:(vm_compute; lia))
    as (w' & w'' & Hrun & Halarm & Hiff & _).
  exists w', w''. split; [exact Hrun|]. split; [exact Halarm|].
  apply Hiff. cbn. lia.
Defined.

Lemma update_aqi_shows_reading_witness :
  exists w',
    update_aqi_image_frame pybadge sample_library
      (scripted_env (fun _ => 0%Q) 1 [Some 600; Some 600; Some 600]) 10 false 3000
      pybadge_world = Ok true w' /\
    r_y (rects w' aqi_pointer) = 0 /\
    l_text (labels w' aqi_value) = "600" /\
    last (aqi_trend_chart w') = Some (inject_Z 600 / 500)%Q.
Proof.
  destruct (sample_aq_sensor (scripted_env (fun _ => 0%Q) 1 [Some 600; Some 600; Some 600])
              10 pybadge_world) as [mean w1|e w1|w1] eqn:Hmean;
    [|vm_compute in Hmean; discriminate Hmean ..].
  assert (Hm : mean = (1800 # 3)%Q /\ aqi_trend_chart w1 = aqi_trend_chart pybadge_world
               /\ aqi_trend_group w1 = aqi_trend_group pybadge_world).
  { vm_compute in Hmean. injection Hmean as <- <-. repeat split. }
  destruct Hm as (-> & Hc & Hg).
  destruct (update_aqi_shows_reading pybadge sample_library _ 10 false 3000
              pybadge_world w1 (1800 # 3)%Q true 600 MAROON "OVERRANGE"
              eq_refl Hmean eq_refl
              ltac:(rewrite Hc; vm_compute; discriminate)
              ltac:(rewrite Hc, Hg; vm_compute; lia))
    as (w' & group' & Hrun & _ & _ & Hchart & Hv & _ & _ & _ & _ & Hover).
  destruct (Hover ltac:(lia)) as (_ & Hy & _).
  exists w'. split; [exact Hrun|]. split; [exact Hy|]. split; [exact Hv|].
  rewrite Hchart, Hc. vm_compute. reflexivity.
Defined.

(** ** The buttons *)

Section Buttons.

Context (cfg : Config) (lib : Library) (env : Env).

Ltac exec :=
  cbv beta iota delta
    [buttons co2_alarm battery_monitor play_tone flash_status print
     bind gets modify ret raise lift data_available pm25_read sleep emit
     set_rect_fill set_rect_x set_rect_y set_label_text set_label_color
     set_monotonic set_polls set_pm_reads set_TEMP_UNIT set_TRANSLATE set_t0
     set_sensor_valid set_rects set_labels set_co2_trend_chart
     set_co2_trend_group set_aqi_trend_chart set_aqi_trend_group set_pixels set_log
     monotonic polls pm_reads TEMP_UNIT TRANSLATE t0 sensor_valid rects labels
     co2_trend_chart co2_trend_group aqi_trend_chart aqi_trend_group pixels log].

Ltac fields :=
  cbn [monotonic polls pm_reads TEMP_UNIT TRANSLATE t0 sensor_valid rects labels
       co2_trend_chart co2_trend_group aqi_trend_chart aqi_trend_group pixels log] in *.

Ltac branch :=
  match goal with
  | |- context [if ?c then _ else _] => destruct c eqn:?
  end.

Lemma buttons_short (button_pressed : string) (hold_time : Z) (w : World) :
  hold_time < 1000 -> buttons cfg lib button_pressed hold_time w = Ok tt w.
Proof.
  intros Hshort. unfold buttons.
  replace (1000 <=? hold_time) with false by (symmetry; apply Z.leb_gt; lia).
  destruct (String.eqb button_pressed "calibrate"),
           (String.eqb button_pressed "temperature"),
           (String.eqb button_pressed "language"); reflexivity.
Qed.

(** X11.  A press held for less than one second does nothing at all,
    whichever button it is, and neither does the answer of the panel
    when no known button is down: the pass goes on in the same world. *)
Theorem buttons_inert (button_pressed : string) (hold_time : Z) (w : World) :
  hold_time < 1000 \/
  (button_pressed <> "calibrate" /\ button_pressed <> "temperature" /\
   button_pressed <> "language") ->
  buttons cfg lib button_pressed hold_time w = Ok tt w.
Proof.
  intros [Hshort|(Hc & Ht & Hl)]; [now apply buttons_short|].
  unfold buttons.
  apply String.eqb_neq in Hc, Ht, Hl. rewrite Hc, Ht, Hl. reflexivity.
Qed.

Lemma buttons_temperature (hold_time : Z) (w : World) :
  1000 <= hold_time ->
  exists w',
    buttons cfg lib "temperature" hold_time w = Ok tt w' /\
    TEMP_UNIT w' = (if String.eqb (TEMP_UNIT w) "F" then "C" else "F") /\
    l_text (labels w' co2_temp_label) = "°" ++ TEMP_UNIT w' /\
    TRANSLATE w' = TRANSLATE w /\
    monotonic w' = monotonic w + 1000 /\
    flashed (interpret lib (TRANSLATE w) "TEMPERATURE") 500 w w'.
Proof.
  intros Hlong. unfold buttons.
  change (String.eqb "temperature" "calibrate") with false.
  change (String.eqb "temperature" "temperature") with true.
  change (String.eqb "temperature" "language") with false.
  replace (1000 <=? hold_time) with true by (symmetry; apply Z.leb_le; lia).
  destruct w as [m p pr tu tr t_0 sv rs ls c1 g1 c2 g2 px lg]. fields.
  exec. destruct (String.eqb tu "F"), (has_speaker cfg);
    (eexists; split; [reflexivity|]; repeat split; try reflexivity; try (cbn; lia)).
  - now exists [Tone 440 100], [].
  - now exists [], [].
  - now exists [Tone 440 100], [].
  - now exists [], [].
Qed.

(** X12.  A long press of the temperature button flashes TEMPERATURE for
    twice 0.5 s, switches the unit to "C" if it was "F" and to "F"
    otherwise, and writes the new unit after the degree sign; the
    language is not touched.  A second long press brings a unit that
    was "C" or "F" back. *)
Theorem temperature_toggle (hold_time hold_time' : Z) (w : World) :
  1000 <= hold_time -> 1000 <= hold_time' ->
  exists w' w'',
    buttons cfg lib "temperature" hold_time w = Ok tt w' /\
    TEMP_UNIT w' = (if String.eqb (TEMP_UNIT w) "F" then "C" else "F") /\
    l_text (labels w' co2_temp_label) = "°" ++ TEMP_UNIT w' /\
    TRANSLATE w' = TRANSLATE w /\
    monotonic w' = monotonic w + 1000 /\
    flashed (interpret lib (TRANSLATE w) "TEMPERATURE") 500 w w' /\
    buttons cfg lib "temperature" hold_time' w' = Ok tt w'' /\
    (TEMP_UNIT w = "C" \/ TEMP_UNIT w = "F" -> TEMP_UNIT w'' = TEMP_UNIT w).
Proof.
  intros Hlong Hlong'.
  destruct (buttons_temperature hold_time w Hlong)
    as (w' & Hrun & Hunit & Hlabel & Htr & Hclock & Hflash).
  destruct (buttons_temperature hold_time' w' Hlong') as (w'' & Hrun' & Hunit' & _).
  exists w', w''. repeat split; try assumption.
  intros [HC|HF]; rewrite Hunit', Hunit.
  - rewrite HC. reflexivity.
  - rewrite HF. reflexivity.
Qed.

Lemma buttons_language (hold_time : Z) (w : World) :
  1000 <= hold_time ->
  exists w',
    buttons cfg lib "language" hold_time w = Ok tt w' /\
    TRANSLATE w' = negb (TRANSLATE w) /\
    l_text (labels w' title_label) = interpret lib (TRANSLATE w') "Air Quality" /\
    l_text (labels w' co2_alarm_label)
      = interpret lib (TRANSLATE w') (snd (CO2_ALARM cfg)) /\
    TEMP_UNIT w' = TEMP_UNIT w /\
    monotonic w' = monotonic w + 2000 /\
    flashed (interpret lib (TRANSLATE w) "LANGUAGE") 500 w w' /\
    flashed (if TRANSLATE w' then interpret lib true "ENGLISH" else "ENGLISH") 500 w w'.
Proof.
  intros Hlong. unfold buttons.
  change (String.eqb "language" "calibrate") with false.
  change (String.eqb "language" "temperature") with false.
  change (String.eqb "language" "language") with true.
  replace (1000 <=? hold_time) with true by (symmetry; apply Z.leb_le; lia).
  destruct w as [m p pr tu tr t_0 sv rs ls c1 g1 c2 g2 px lg]. fields.
  exec. destruct tr, (has_speaker cfg); exec;
    (eexists; split; [reflexivity|]; repeat split; try reflexivity; try (cbn; lia)).
  all: try (eexists [_; _], []; reflexivity).
  all: try (eexists [_], []; reflexivity).
  all: try (eexists [], [_; _]; reflexivity).
  all: try (eexists [], [_]; reflexivity).
Qed.

(** X13.  A long press of the language button flashes LANGUAGE, flips
    [TRANSLATE], rewrites the title and the alarm label in the new
    language and flashes ENGLISH (translated if the new language is
    not English); it takes 2 s and leaves the temperature unit alone.
    A second long press restores the language. *)
Theorem language_toggle (hold_time hold_time' : Z) (w : World) :
  1000 <= hold_time -> 1000 <= hold_time' ->
  exists w' w'',
    buttons cfg lib "language" hold_time w = Ok tt w' /\
    TRANSLATE w' = negb (TRANSLATE w) /\
    l_text (labels w' title_label) = interpret lib (TRANSLATE w') "Air Quality" /\
    l_text (labels w' co2_alarm_label)
      = interpret lib (TRANSLATE w') (snd (CO2_ALARM cfg)) /\
    TEMP_UNIT w' = TEMP_UNIT w /\
    monotonic w' = monotonic w + 2000 /\
    flashed (interpret lib (TRANSLATE w) "LANGUAGE") 500 w w' /\
    flashed (if TRANSLATE w' then interpret lib true "ENGLISH" else "ENGLISH") 500 w w' /\
    buttons cfg lib "language" hold_time' w' = Ok tt w'' /\
    TRANSLATE w'' = TRANSLATE w /\
    l_text (labels w'' title_label) = interpret lib (TRANSLATE w) "Air Quality".
Proof.
  intros Hlong Hlong'.
  destruct (buttons_language hold_time w Hlong)
    as (w' & Hrun & Htr & Htitle & Halarm & Hunit & Hclock & Hf1 & Hf2).
  destruct (buttons_language hold_time' w' Hlong') as (w'' & Hrun' & Htr' & Htitle' & _).
  assert (Hback : TRANSLATE w'' = TRANSLATE w) by (rewrite Htr', Htr; apply negb_involutive).
  exists w', w''. repeat split; try assumption.
  now rewrite Htitle', Hback.
Qed.

(** X14.  Whatever the panel answers, the button code returns; it never
    touches the trend charts, their bars, [sensor_valid], the loop timer
    or the sensor bookkeeping; it changes the temperature unit only on
    a long press of "temperature" and the language only on a long press
    of "language". *)
Theorem buttons_only_configure (button_pressed : string) (hold_time : Z) (w : World) :
  exists w',
    buttons cfg lib button_pressed hold_time w = Ok tt w' /\
    polls w' = polls w /\ pm_reads w' = pm_reads w /\
    t0 w' = t0 w /\ sensor_valid w' = sensor_valid w /\
    co2_trend_chart w' = co2_trend_chart w /\ co2_trend_group w' = co2_trend_group w /\
    aqi_trend_chart w' = aqi_trend_chart w /\ aqi_trend_group w' = aqi_trend_group w /\
    (TEMP_UNIT w' = TEMP_UNIT w \/ button_pressed = "temperature" /\ 1000 <= hold_time) /\
    (TRANSLATE w' = TRANSLATE w \/ button_pressed = "language" /\ 1000 <= hold_time).
Proof.
  destruct (Z.lt_ge_cases hold_time 1000) as [Hshort|Hlong].
  { exists w. rewrite buttons_short by exact Hshort. repeat split; now left. }
  unfold buttons.
  replace (1000 <=? hold_time) with true by (symmetry; apply Z.leb_le; lia).
  destruct w as [m p pr tu tr t_0 sv rs ls c1 g1 c2 g2 px lg]. fields.
  destruct (String.eqb_spec button_pressed "calibrate") as [Hc|Hc],
           (String.eqb_spec button_pressed "temperature") as [Ht|Ht],
           (String.eqb_spec button_pressed "language") as [Hl|Hl];
    try congruence; exec; repeat (branch; exec);
    (eexists; split; [reflexivity|]; repeat split;
     first [left; reflexivity | right; split; [assumption | lia]]).
Qed.

End Buttons.

Lemma buttons_inert_witness :
  buttons pybadge sample_library "language" 999 pybadge_world = Ok tt pybadge_world.
Proof. apply buttons_inert. left. lia. Defined.

Lemma temperature_toggle_witness :
  exists w' w'',
    buttons pybadge sample_library "temperature" 1000 pybadge_world = Ok tt w' /\
    TEMP_UNIT w' = "F" /\
    buttons pybadge sample_library "temperature" 1200 w' = Ok tt w'' /\
    TEMP_UNIT w'' = "C".
Proof.
  destruct (temperature_toggle pybadge sample_library 1000 1200 pybadge_world
              ltac:(lia) ltac:(lia))
    as (w' & w'' & Hrun & Hunit & _ & _ & _ & _ & Hrun' & Hback).
  exists w', w''. split; [exact Hrun|]. split; [exact Hunit|]. split; [exact Hrun'|].
  apply Hback. now left.
Defined.

Lemma language_toggle_witness :
  exists w' w'',
    buttons pybadge sample_library "language" 1000 pybadge_world = Ok tt w' /\
    TRANSLATE w' = true /\
    buttons pybadge sample_library "language" 1000 w' = Ok tt w'' /\
    TRANSLATE w'' = false.
Proof.
  destruct (language_toggle pybadge sample_library 1000 1000 pybadge_world
              ltac:(lia) ltac:(lia))
    as (w' & w'' & Hrun & Htr & _ & _ & _ & _ & _ & _ & Hrun' & Hback & _).
  exists w', w''. repeat split; assumption.
Defined.

(** ** The first pass without a CO2 sensor, the blocking wait, a healthy window *)

Section Runs.

Context (cfg : Config) (lib : Library) (env : Env).

Ltac exec :=
  cbv beta iota zeta delta
    [buttons co2_alarm battery_monitor play_tone flash_status print
     bind gets modify ret raise lift data_available pm25_read sleep emit
     set_rect_fill set_rect_x set_rect_y set_label_text set_label_color
     set_monotonic set_polls set_pm_reads set_TEMP_UNIT set_TRANSLATE set_t0
     set_sensor_valid set_rects set_labels set_co2_trend_chart
     set_co2_trend_group set_aqi_trend_chart set_aqi_trend_group set_pixels set_log
     monotonic polls pm_reads TEMP_UNIT TRANSLATE t0 sensor_valid rects labels
     co2_trend_chart co2_trend_group aqi_trend_chart aqi_trend_group pixels log].

Ltac fields :=
  cbn [monotonic polls pm_reads TEMP_UNIT TRANSLATE t0 sensor_valid rects labels
       co2_trend_chart co2_trend_group aqi_trend_chart aqi_trend_group pixels log] in *.

Lemma bind_ok_inv {A B : Type} (m : M A) (k : A -> M B) (w w' : World) (b : B) :
  bind m k w = Ok b w' -> exists a w1, m w = Ok a w1 /\ k a w1 = Ok b w'.
Proof.
  unfold bind. destruct (m w) as [a w1|e w1|w1]; try discriminate.
  intros H. now exists a, w1.
Qed.

Lemma setup_without_co2 (fuel : nat) (w w1 : World) :
  co2_sensor_exists cfg = false ->
  setup cfg lib env fuel w = Ok tt w1 ->
  sensor_valid w1 = sensor_valid w /\ t0 w1 = monotonic w1.
Proof.
  intros Hex. unfold setup. rewrite Hex. intros H.
  apply bind_ok_inv in H as (a1 & wa & H1 & H).
  apply bind_ok_inv in H as (a2 & wb & H2 & H).
  apply bind_ok_inv in H as (a3 & wc & H3 & H).
  apply bind_ok_inv in H as (a4 & wd & H4 & H).
  assert (Ha : sensor_valid wa = sensor_valid w).
  { eapply (on_return_bind kept _ _ kept_trans) in H1;
      [apply H1 | apply kept_gets | intros tr; apply kept_flash_status]. }
  assert (Hb : sensor_valid wb = sensor_valid wa).
  { destruct (aqi_sensor_exists cfg).
    - apply bind_ok_inv in H2 as (v & wv & Hv & Hret).
      injection Hret as _ <-. apply (steady_update_aqi cfg lib env) in Hv. apply Hv.
    - eapply (on_return_bind kept _ _ kept_trans) in H2;
        [apply H2 | apply kept_gets | intros tr; apply kept_flash_status]. }
  assert (Hc : sensor_valid wc = sensor_valid wb) by (apply (kept_play_tone cfg) in H3; apply H3).
  assert (Hd : sensor_valid wd = sensor_valid wc) by (apply (kept_play_tone cfg) in H4; apply H4).
  unfold bind, gets, modify in H. injection H as <-.
  split; [cbn; congruence | reflexivity].
Qed.

(** X15.  On a board with a battery monitor and no CO2 sensor the name
    [sensor_valid] is still unbound when the setup is over, the loop
    timer has just been reset, and the first pass of the loop (no long
    press) reaches the battery check before any acquisition: the pass
    ends in [NameError]. *)
Theorem first_pass_without_co2_sensor (fuel : nat) (button_pressed : string)
    (hold_time raw : Z) (w w1 : World) :
  co2_sensor_exists cfg = false ->
  has_battery_mon cfg = true ->
  0 < SENSOR_INTERVAL cfg ->
  sensor_valid w = None ->
  setup cfg lib env fuel w = Ok tt w1 ->
  hold_time < 1000 ->
  exists w',
    loop_pass cfg lib env fuel button_pressed hold_time raw w1
      = Raised (Py.NameError "sensor_valid") w'.
Proof.
  intros Hex Hbat Hint Hunbound Hsetup Hshort.
  destruct (setup_without_co2 fuel w w1 Hex Hsetup) as [Hsv Ht0].
  rewrite Hunbound in Hsv.
  unfold loop_pass, co2_alarm, battery_monitor. rewrite Hex, Hbat.
  unfold bind at 1. rewrite (buttons_short cfg lib) by exact Hshort.
  destruct w1 as [m p pr tu tr t_0 sv rs ls c1 g1 c2 g2 px lg]. fields. subst sv t_0.
  exec.
  replace (m <? m - SENSOR_INTERVAL cfg) with false by (symmetry; apply Z.ltb_ge; lia).
  destruct (truediv_positive (m - m) (SENSOR_INTERVAL cfg) Hint) as [Hdiv _].
  rewrite Hdiv. exec.
  eexists. reflexivity.
Qed.

(** X16.  A blocking wait on a sensor that has data at its [j]-th poll
    from now ends at that poll: it has flashed WARMUP once, for one
    second, after each of the [j] polls that found nothing, and has
    changed neither the configuration nor the trend data. *)
Theorem blocking_wait_ends_on_data (j : nat) :
  forall (fuel : nat) (wait_time t_0 : Z) (w : World),
    (forall i, (i < j)%nat -> scd_data_available env (polls w + i) = false) ->
    scd_data_available env (polls w + j) = true ->
    0 < wait_time ->
    t_0 <= monotonic w ->
    (j <= fuel)%nat ->
    exists w',
      co2_wait lib env fuel true wait_time t_0 w = Ok tt w' /\
      polls w' = (polls w + j + 1)%nat /\
      monotonic w' = monotonic w + 1000 * Z.of_nat j /\
      kept w w'.
Proof.
  induction j as [|j IH]; intros fuel wait_time t_0 w Hnone Hdata Hpos Ht Hfuel.
  - rewrite Nat.add_0_r in Hdata.
    exists (set_polls (S (polls w)) w).
    split; [|repeat split; cbn; lia].
    destruct fuel; cbn [co2_wait]; unfold bind, data_available; rewrite Hdata; reflexivity.
  - destruct fuel as [|fuel]; [lia|].
    pose proof (Hnone 0%nat ltac:(lia)) as Hfirst. rewrite Nat.add_0_r in Hfirst.
    assert (Hkept : forall w', co2_wait lib env (S fuel) true wait_time t_0 w = Ok tt w' ->
                               kept w w') by (intros w'; apply kept_co2_wait).
    revert Hkept. cbn [co2_wait].
    destruct w as [m p pr tu tr t0w sv rs ls c1 g1 c2 g2 px lg]. fields.
    exec. rewrite Hfirst. cbn [negb].
    replace (t_0 - m <? wait_time) with true by (symmetry; apply Z.ltb_lt; lia).
    exec.
    match goal with
    | |- context [co2_wait lib env fuel true wait_time t_0 ?w1] =>
        destruct (IH fuel wait_time t_0 w1) as (w' & Hrun & Hpolls & Hclock & _)
    end.
    + intros i Hi. fields. rewrite <- (Hnone (S i)) by lia. f_equal. lia.
    + fields. rewrite <- Hdata. f_equal. lia.
    + exact Hpos.
    + fields. lia.
    + lia.
    + fields. intros Hkept. exists w'. rewrite Hrun.
      unfold polls in Hpolls. unfold monotonic in Hclock.
      split; [reflexivity|]. split; [lia|]. split; [lia|].
      apply Hkept. exact Hrun.
Qed.

(** X17.  With a healthy sensor, one whose every read succeeds in less
    than 150 ms, the sampling window makes exactly three reads: the
    call returns the mean of those three values after 3 s of sleep plus
    the three read times, between 3.003 s and 3.447 s in all.  (The
    third read is made because less than 2.3 s have passed after the
    second, by 2 ms at least.) *)
Theorem healthy_sensor_three_samples (fuel : nat) (w : World) :
  (forall k, exists lat v, pm25 env k = (lat, Some v) /\ (0 < lat < 150)%N) ->
  (3 <= fuel)%nat ->
  exists mean w',
    sample_aq_sensor env fuel w = Ok mean w' /\
    length (successes (reads_from env (pm_reads w) 3)) = 3%nat /\
    (mean * 3 == inject_Z (sumZ (successes (reads_from env (pm_reads w) 3))))%Q /\
    pm_reads w' = (pm_reads w + 3)%nat /\
    monotonic w' = monotonic w + elapsed (reads_from env (pm_reads w) 3) /\
    3003 <= monotonic w' - monotonic w <= 3447.
Proof.
  intros Hhealthy Hfuel.
  destruct fuel as [|[|[|fuel]]]; try lia.
  destruct w as [m p pr tu tr t0w sv rs ls c1 g1 c2 g2 px lg]. fields.
  destruct (Hhealthy pr) as (l0 & v0 & E0 & B0).
  destruct (Hhealthy (S pr)) as (l1 & v1 & E1 & B1).
  destruct (Hhealthy (S (S pr))) as (l2 & v2 & E2 & B2).
  assert (Hreads : reads_from env pr 3 = [(l0, Some v0); (l1, Some v1); (l2, Some v2)]).
  { unfold reads_from. cbn [seq map]. now rewrite E0, E1, E2. }
  rewrite Hreads. cbn [successes elapsed sumZ fold_right length].
  unfold sample_aq_sensor. exec.
  cbn [sample_loop]. exec.
  replace (m - m <=? 2300) with true by (symmetry; apply Z.leb_le; lia).
  rewrite E0. cbn [fst snd].
  replace (m + Z.of_N l0 + 1000 - m <=? 2300) with true by (symmetry; apply Z.leb_le; lia).
  rewrite E1. cbn [fst snd].
  replace (m + Z.of_N l0 + 1000 + Z.of_N l1 + 1000 - m <=? 2300) with true
    by (symmetry; apply Z.leb_le; lia).
  rewrite E2. cbn [fst snd].
  rewrite sample_loop_closed by (cbn; lia).
  unfold Py.append. cbn [app fold_left length].
  eexists _, _. split; [reflexivity|].
  split; [reflexivity|]. split.
  - assert (H3 : (inject_Z (Z.of_nat 3) == 3)%Q) by reflexivity.
    rewrite H3.
    replace (0 + v0 + v1 + v2) with (v0 + (v1 + (v2 + 0))) by lia.
    field.
  - cbn. split; [lia|]. split; lia.
Qed.

End Runs.

Lemma first_pass_without_co2_sensor_witness :
  exists w1 w',
    setup (mkConfig false false true true true 160 128 40 (2500, RED, "ALARM") 2000)
      sample_library silent_env 0 pybadge_world = Ok tt w1 /\
    loop_pass (mkConfig false false true true true 160 128 40 (2500, RED, "ALARM") 2000)
      sample_library silent_env 0 "" 0 60000 w1
      = Raised (Py.NameError "sensor_valid") w'.
Proof.
  destruct (setup (mkConfig false false true true true 160 128 40 (2500, RED, "ALARM") 2000)
              sample_library silent_env 0 pybadge_world) as [[] w1|e w1|w1] eqn:Hsetup;
    [|vm_compute in Hsetup; discriminate Hsetup ..].
  destruct (first_pass_without_co2_sensor
              (mkConfig false false true true true 160 128 40 (2500, RED, "ALARM") 2000)
              sample_library silent_env 0 "" 0 60000 pybadge_world w1
              eq_refl eq_refl ltac:(cbn; lia) eq_refl Hsetup ltac:(lia)) as (w' & Hpass).
  exists w1, w'. split; [reflexivity | exact Hpass].
Defined.

Lemma blocking_wait_ends_on_data_witness :
  exists w',
    co2_wait sample_library
      (mkEnv (fun k => Nat.leb 2 k) (fun _ => 0%Q) (fun _ => 0%Q) (fun _ => 0%Q)
             (fun _ => (1%N, None)))
      5 true 3000 0 pybadge_world = Ok tt w' /\
    polls w' = 3%nat /\ monotonic w' = 2000.
Proof.
  destruct (blocking_wait_ends_on_data sample_library
              (mkEnv (fun k => Nat.leb 2 k) (fun _ => 0%Q) (fun _ => 0%Q) (fun _ => 0%Q)
                     (fun _ => (1%N, None)))
              2 5 3000 0 pybadge_world) as (w' & Hrun & Hpolls & Hclock & _).
  - intros [|[|i]] Hi; [reflexivity | reflexivity | lia].
  - reflexivity.
  - lia.
  - vm_compute. discriminate.
  - lia.
  - exists w'. split; [exact Hrun|]. split; [exact Hpolls | exact Hclock].
Defined.

Lemma healthy_sensor_three_samples_witness :
  exists mean w',
    sample_aq_sensor (scripted_env (fun _ => 0%Q) 20 [Some 10; Some 20; Some 30]) 3
      pybadge_world = Ok mean w' /\
    (mean * 3 == 60)%Q /\
    pm_reads w' = 3%nat.
Proof.
  destruct (healthy_sensor_three_samples
              (scripted_env (fun _ => 0%Q) 20 [Some 10; Some 20; Some 30]) 3 pybadge_world)
    as (mean & w' & Hrun & _ & Hmean & Hreads & _).
  - intros k.
    destruct k as [|[|[|k]]];
      [exists 20%N, 10 | exists 20%N, 20 | exists 20%N, 30 | exists 20%N, 0];
      (split; [try reflexivity | lia]).
    destruct k; reflexivity.
  - lia.
  - exists mean, w'. split; [exact Hrun|]. split; [exact Hmean | exact Hreads].
Defined.

(** ** One pass of the loop: between acquisitions, and at an acquisition *)

Section Passes.

Context (cfg : Config) (lib : Library) (env : Env).

Ltac fields :=
  cbn [monotonic polls pm_reads TEMP_UNIT TRANSLATE t0 sensor_valid rects labels
       co2_trend_chart co2_trend_group aqi_trend_chart aqi_trend_group pixels log] in *.



(** X19.  At an acquisition (no long press, the interval over) the pass
    binds [sensor_valid] to the flag returned by the CO2 update, throws
    the particulate update's return value away, resets the loop timer
    to the time at which the particulate update ended, and only then
    runs the alarm and the battery check: the battery check is gated by
    the CO2 flag alone. *)
Theorem pass_at_acquisition (fuel : nat) (button_pressed : string)
    (hold_time raw : Z) (w w1 w2 : World) (v a : bool) :
  hold_time < 1000 ->
  t0 w < monotonic w - SENSOR_INTERVAL cfg ->
  update_co2_image_frame cfg lib env fuel false 3000 w = Ok v w1 ->
  update_aqi_image_frame cfg lib env fuel false 3000 (set_sensor_valid (Some v) w1)
    = Ok a w2 ->
  loop_pass cfg lib env fuel button_pressed hold_time raw w
    = bind (co2_alarm cfg lib) (fun _ => battery_monitor cfg lib raw)
        (set_t0 (monotonic w2) w2) /\
  sensor_valid (set_t0 (monotonic w2) w2) = Some v /\
  same_lengths w (set_t0 (monotonic w2) w2).
Proof.
  intros Hshort Hdue Hco2 Haqi.
  split; [|split].
  - unfold loop_pass. unfold bind at 1. rewrite (buttons_short cfg lib) by exact Hshort.
    unfold bind at 1. unfold bind at 1. unfold gets at 1 2.
    replace (t0 w <? monotonic w - SENSOR_INTERVAL cfg) with true
      by (symmetry; apply Z.ltb_lt; lia).
    unfold bind at 1. unfold bind at 1. rewrite Hco2.
    unfold bind at 1. unfold modify at 1.
    unfold bind at 1. rewrite Haqi.
    unfold bind at 1. unfold gets at 1. unfold modify at 1. reflexivity.
  - apply (steady_update_aqi cfg lib env) in Haqi.
    destruct Haqi as (_ & _ & _ & Hsv & _). cbn. rewrite Hsv. reflexivity.
  - apply (steady_update_co2 cfg lib env) in Hco2. apply steady_co2_lengths in Hco2.
    apply (steady_update_aqi cfg lib env) in Haqi. apply steady_aqi_lengths in Haqi.
    eapply same_lengths_trans; [exact Hco2|].
    apply (same_lengths_trans _ (set_sensor_valid (Some v) w1)); [repeat split|].
    eapply same_lengths_trans; [exact Haqi|]. repeat split.
Qed.

End Passes.


Lemma pass_at_acquisition_witness :
  exists w2,
    loop_pass pybadge sample_library
      (scripted_env (fun _ => 50%Q) 1 [Some 10; Some 20; Some 30]) 10 "" 0 60000
      (set_monotonic 5000 pybadge_world)
      = bind (co2_alarm pybadge sample_library)
          (fun _ => battery_monitor pybadge sample_library 60000) w2 /\
    sensor_valid w2 = Some false.
Proof.
  destruct (update_co2_image_frame pybadge sample_library
              (scripted_env (fun _ => 50%Q) 1 [Some 10; Some 20; Some 30]) 10 false 3000
              (set_monotonic 5000 pybadge_world)) as [v w1|e w1|w1] eqn:Hco2;
    [|vm_compute in Hco2; discriminate Hco2 ..].
  assert (Hv : v = false) by (vm_compute in Hco2; now injection Hco2 as <- _).
  destruct (update_aqi_image_frame pybadge sample_library
              (scripted_env (fun _ => 50%Q) 1 [Some 10; Some 20; Some 30]) 10 false 3000
              (set_sensor_valid (Some v) w1)) as [a w2|e w2|w2] eqn:Haqi.
  - destruct (pass_at_acquisition pybadge sample_library _ 10 "" 0 60000
                (set_monotonic 5000 pybadge_world) w1 w2 v a
                ltac:(lia) ltac:(vm_compute; reflexivity) Hco2 Haqi) as (Hrun & Hsv & _).
    exists (set_t0 (monotonic w2) w2). split; [exact Hrun|]. now rewrite Hsv, Hv.
  - exfalso. vm_compute in Hco2. injection Hco2 as <- <-.
    vm_compute in Haqi. discriminate Haqi.
  - exfalso. vm_compute in Hco2. injection Hco2 as <- <-.
    vm_compute in Haqi. discriminate Haqi.
Defined.
